(** * SlicerConnectBackend: the static front-end server (frontend/server.js)

    A shallow embedding of [frontend/server.js] and of the parts of the
    Node runtime and of the Express stack the file calls into.

    [server.js] itself is thirty lines: it loads the environment
    ([dotenv.config()]), builds an Express application out of three
    middlewares ([cors()], [express.json()], [express.static(<dir>/src)])
    and two GET routes, and listens on [process.env.PORT || 3000].  The
    definitions [app], [static_dir], [PORT] and [main] follow that file
    line by line.  What the file calls is library code; it is modelled
    after the Express 4 line of packages (router with path-to-regexp 0.1,
    body-parser 1.20, serve-static 1.15 with send 0.18, finalhandler 1.2,
    cors 2.8, dotenv) and after Node's POSIX [path] module, each with the
    default options that server.js leaves in place.

    Scope of the model of a request: its method, the path name of its
    URL, the media type of its Content-Type header, its
    Access-Control-Request-Headers header and its body.  Cache validators
    (If-None-Match, ...), Range, Content-Encoding and charset parameters
    are not part of a request here, so the 304, 206, 412, 415 and 416
    answers they trigger do not appear.  Strings are sequences of octets;
    a file system is a finite map from absolute paths to files and
    directories.

    The file has two parts: the definitions (runtime and libraries first,
    then server.js, then the vocabulary of the statements and a sample
    installation), and the properties (facts about strings and paths,
    about each layer, the statements C1 to C10 with their concrete
    cases, and last the further properties X1 to X19 with theirs). *)

From Stdlib Require Import Ascii String List Bool Arith NArith.
From stdpp Require Import gmap strings.

Local Open Scope stdpp_scope.

(** ** Characters and strings *)

Module Chars.

Definition code (c : ascii) : nat := nat_of_ascii c.

Definition is_digit (c : ascii) : bool :=
  (48 <=? code c) && (code c <=? 57).

Definition is_upper (c : ascii) : bool :=
  (65 <=? code c) && (code c <=? 90).

Definition is_lower (c : ascii) : bool :=
  (97 <=? code c) && (code c <=? 122).

(** [String.prototype.toLowerCase] / [toUpperCase] on the ASCII range. *)
Definition to_lower (c : ascii) : ascii :=
  if is_upper c then ascii_of_nat (code c + 32) else c.

Definition to_upper (c : ascii) : ascii :=
  if is_lower c then ascii_of_nat (code c - 32) else c.

(** Value of a hexadecimal digit. *)
Definition hex_val (c : ascii) : option nat :=
  if is_digit c then Some (code c - 48)
  else if (65 <=? code c) && (code c <=? 70) then Some (code c - 55)
  else if (97 <=? code c) && (code c <=? 102) then Some (code c - 87)
  else None.

Definition quote : ascii := "034"%char.
Definition backslash : ascii := "\"%char.
Definition nul : ascii := "000"%char.

End Chars.

Module Str.

Fixpoint map (f : ascii -> ascii) (s : string) : string :=
  match s with
  | EmptyString => EmptyString
  | String c r => String (f c) (map f r)
  end.

Definition to_lower : string -> string := map Chars.to_lower.
Definition to_upper : string -> string := map Chars.to_upper.

Fixpoint existsb (p : ascii -> bool) (s : string) : bool :=
  match s with
  | EmptyString => false
  | String c r => p c || existsb p r
  end.

Definition head (s : string) : option ascii :=
  match s with
  | EmptyString => None
  | String c _ => Some c
  end.

Fixpoint last (s : string) : option ascii :=
  match s with
  | EmptyString => None
  | String c EmptyString => Some c
  | String _ r => last r
  end.

Definition starts_with_char (c : ascii) (s : string) : bool :=
  match s with
  | String d _ => Ascii.eqb c d
  | EmptyString => false
  end.

Definition ends_with_char (c : ascii) (s : string) : bool :=
  match last s with
  | Some d => Ascii.eqb c d
  | None => false
  end.

(** [s.startsWith(p)], returning what follows the prefix. *)
Fixpoint strip_prefix (p s : string) : option string :=
  match p, s with
  | EmptyString, _ => Some s
  | String a p', String b s' =>
      if Ascii.eqb a b then strip_prefix p' s' else None
  | String _ _, EmptyString => None
  end.

(** [s.split(sep)] for a set of one-character separators: never empty. *)
Fixpoint split (is_sep : ascii -> bool) (s : string) : list string :=
  match s with
  | EmptyString => [EmptyString]
  | String c r =>
      if is_sep c then EmptyString :: split is_sep r
      else match split is_sep r with
           | [] => [String c EmptyString]
           | h :: t => String c h :: t
           end
  end.

(** [parts.join(sep)]. *)
Fixpoint join (sep : string) (l : list string) : string :=
  match l with
  | [] => EmptyString
  | [x] => x
  | x :: r => x +:+ sep +:+ join sep r
  end.

End Str.

(** ** Node's [path] module (POSIX flavour) *)

Module Path.

Definition is_sep (c : ascii) : bool := Ascii.eqb c "/"%char.

Definition segments (p : string) : list string := Str.split is_sep p.

(** [normalizeString(path, allowAboveRoot)]: empty and "." segments are
    dropped, ".." removes the segment before it; [stack] holds the kept
    segments, last one first. *)
Fixpoint normalize_go (allow_above : bool) (stack segs : list string)
  : list string :=
  match segs with
  | [] => rev stack
  | seg :: r =>
      if decide (seg = "" \/ seg = ".") then normalize_go allow_above stack r
      else if decide (seg = "..") then
        match stack with
        | top :: below =>
            if decide (top = "..")
            then normalize_go allow_above
                   (if allow_above then ".." :: stack else stack) r
            else normalize_go allow_above below r
        | [] =>
            normalize_go allow_above
              (if allow_above then [".."] else []) r
        end
      else normalize_go allow_above (seg :: stack) r
  end.

Definition normalizeString (p : string) (allow_above : bool) : string :=
  Str.join "/" (normalize_go allow_above [] (segments p)).

Definition isAbsolute (p : string) : bool := Str.starts_with_char "/"%char p.

(** [path.normalize]. *)
Definition normalize (p : string) : string :=
  if decide (p = "") then "."
  else
    let trailing := Str.ends_with_char "/"%char p in
    let q := normalizeString p (negb (isAbsolute p)) in
    if decide (q = "") then
      if isAbsolute p then "/" else if trailing then "./" else "."
    else
      let q := if trailing then q +:+ "/" else q in
      if isAbsolute p then "/" +:+ q else q.

(** [path.join]: the non-empty arguments, joined by "/" and normalised. *)
Definition join (args : list string) : string :=
  match filter (fun a => a <> "") args with
  | [] => "."
  | parts => normalize (Str.join "/" parts)
  end.

(** [path.resolve(p)] in a process whose working directory is [cwd]. *)
Definition resolve (cwd p : string) : string :=
  let '(joined, absolute) :=
    if decide (p = "") then (cwd +:+ "/", isAbsolute cwd)
    else if isAbsolute p then (p +:+ "/", true)
    else if decide (cwd = "") then (p +:+ "/", false)
    else (cwd +:+ "/" +:+ p +:+ "/", isAbsolute cwd) in
  let q := normalizeString joined (negb absolute) in
  if absolute then "/" +:+ q
  else if decide (q = "") then "." else q.

(** The scan of [path.dirname] from the end of the path down to index 1:
    [l] holds the characters at indices [length-1 .. 1]; trailing
    separators are skipped, and the first separator after a
    non-separator ends the directory part. *)
Fixpoint dirname_scan (matched_slash : bool) (l : list ascii)
  : option (list ascii) :=
  match l with
  | [] => None
  | c :: l' =>
      if is_sep c then
        if matched_slash then dirname_scan true l' else Some l'
      else dirname_scan false l'
  end.

(** [path.dirname]. *)
Definition dirname (p : string) : string :=
  match p with
  | EmptyString => "."
  | String c0 rest =>
      let has_root := is_sep c0 in
      match dirname_scan true (rev (list_ascii_of_string rest)) with
      | None => if has_root then "/" else "."
      | Some [] => if has_root then "//" else String c0 EmptyString
      | Some before => String c0 (string_of_list_ascii (rev before))
      end
  end.

End Path.

(** ** Built-ins of the JavaScript runtime *)

Module JS.

(** The values [server.js] computes with outside of request handling. *)
Inductive value :=
| Undefined
| Str (s : string)
| Num (n : N).

(** ToBoolean. *)
Definition truthy (v : value) : bool :=
  match v with
  | Undefined => false
  | Str s => negb (String.eqb s "")
  | Num n => negb (n =? 0)%N
  end.

(** [a || b]: the left operand unless it is falsy. *)
Definition or (a b : value) : value := if truthy a then a else b.

(** [process.env.NAME]: a string, or [undefined] when the variable is
    not in the environment. *)
Definition env_get (env : gmap string string) (name : string) : value :=
  match env !! name with
  | Some s => Str s
  | None => Undefined
  end.

(** [decodeURIComponent], octet by octet: every "%XY" becomes the octet
    with hexadecimal code XY; a "%" not followed by two hexadecimal
    digits raises URIError ([None]).  The check that escaped octets
    above 0x7F form well-formed UTF-8 is not modelled. *)
Fixpoint decodeURIComponent (s : string) : option string :=
  match s with
  | EmptyString => Some EmptyString
  | String c r =>
      if Ascii.eqb c "%"%char then
        match r with
        | String h (String l r') =>
            match Chars.hex_val h, Chars.hex_val l with
            | Some a, Some b =>
                option_map (String (ascii_of_nat (16 * a + b)))
                           (decodeURIComponent r')
            | _, _ => None
            end
        | _ => None
        end
      else option_map (String c) (decodeURIComponent r)
  end.

(** The value of a string of decimal digits. *)
Fixpoint decimal_go (acc : N) (s : string) : option N :=
  match s with
  | EmptyString => Some acc
  | String c r =>
      if Chars.is_digit c
      then decimal_go (10 * acc + N.of_nat (Chars.code c - 48))%N r
      else None
  end.

Definition decimal (s : string) : option N :=
  match s with
  | EmptyString => None
  | _ => decimal_go 0%N s
  end.

End JS.

(** ** JSON texts (RFC 8259), as [JSON.parse] accepts them *)

Module Json.

Definition is_ws (c : ascii) : bool :=
  let n := Chars.code c in
  (n =? 32) || (n =? 9) || (n =? 10) || (n =? 13).

Fixpoint skip_ws (s : string) : string :=
  match s with
  | String c r => if is_ws c then skip_ws r else s
  | EmptyString => s
  end.

Definition is_hex (c : ascii) : bool :=
  match Chars.hex_val c with Some _ => true | None => false end.

Definition is_simple_escape (c : ascii) : bool :=
  Ascii.eqb c Chars.quote || Ascii.eqb c Chars.backslash
  || Ascii.eqb c "/"%char || Ascii.eqb c "b"%char || Ascii.eqb c "f"%char
  || Ascii.eqb c "n"%char || Ascii.eqb c "r"%char || Ascii.eqb c "t"%char.

(** The rest of a string literal after its opening quote; gives what
    follows the closing quote. *)
Fixpoint string_body (s : string) : option string :=
  match s with
  | EmptyString => None
  | String c r =>
      if Ascii.eqb c Chars.quote then Some r
      else if Ascii.eqb c Chars.backslash then
        match r with
        | String e r' =>
            if is_simple_escape e then string_body r'
            else if Ascii.eqb e "u"%char then
              match r' with
              | String h1 (String h2 (String h3 (String h4 r''))) =>
                  if is_hex h1 && is_hex h2 && is_hex h3 && is_hex h4
                  then string_body r'' else None
              | _ => None
              end
            else None
        | EmptyString => None
        end
      else if Chars.code c <? 32 then None
      else string_body r
  end.

Fixpoint skip_digits (s : string) : string :=
  match s with
  | String c r => if Chars.is_digit c then skip_digits r else s
  | EmptyString => s
  end.

(** One or more digits. *)
Definition digits1 (s : string) : option string :=
  match s with
  | String c r => if Chars.is_digit c then Some (skip_digits r) else None
  | EmptyString => None
  end.

Definition exponent (s : string) : option string :=
  match s with
  | String c r =>
      if Ascii.eqb c "e"%char || Ascii.eqb c "E"%char then
        match r with
        | String sg r' =>
            if Ascii.eqb sg "+"%char || Ascii.eqb sg "-"%char
            then digits1 r' else digits1 r
        | EmptyString => None
        end
      else Some s
  | EmptyString => Some s
  end.

Definition fraction (s : string) : option string :=
  match s with
  | String c r =>
      if Ascii.eqb c "."%char then
        match digits1 r with
        | Some r' => exponent r'
        | None => None
        end
      else exponent s
  | EmptyString => Some s
  end.

Definition number (s : string) : option string :=
  let s := match s with
           | String c r => if Ascii.eqb c "-"%char then r else s
           | EmptyString => s
           end in
  match s with
  | String c r =>
      if Ascii.eqb c "0"%char then fraction r
      else if Chars.is_digit c then fraction (skip_digits r)
      else None
  | EmptyString => None
  end.

(** A value at the head of [s] (no leading white space); gives what
    follows it.  [members] and [elements] read the inside of an object
    and of an array from its first member on.  A call spends one unit of
    fuel, and two nested calls never share a character of a value they
    accept, so twice the length of the text is fuel enough. *)
Fixpoint value (fuel : nat) (s : string) : option string :=
  match fuel with
  | O => None
  | S n =>
      match s with
      | EmptyString => None
      | String c r =>
          if Ascii.eqb c "{"%char then
            match skip_ws r with
            | String c1 r1 =>
                if Ascii.eqb c1 "}"%char then Some r1
                else members n (String c1 r1)
            | EmptyString => None
            end
          else if Ascii.eqb c "["%char then
            match skip_ws r with
            | String c1 r1 =>
                if Ascii.eqb c1 "]"%char then Some r1
                else elements n (String c1 r1)
            | EmptyString => None
            end
          else if Ascii.eqb c Chars.quote then string_body r
          else if Ascii.eqb c "t"%char then Str.strip_prefix "rue" r
          else if Ascii.eqb c "f"%char then Str.strip_prefix "alse" r
          else if Ascii.eqb c "n"%char then Str.strip_prefix "ull" r
          else number s
      end
  end
with members (fuel : nat) (s : string) : option string :=
  match fuel with
  | O => None
  | S n =>
      match s with
      | String c r =>
          if Ascii.eqb c Chars.quote then
            match string_body r with
            | Some r1 =>
                match skip_ws r1 with
                | String c2 r2 =>
                    if Ascii.eqb c2 ":"%char then
                      match value n (skip_ws r2) with
                      | Some r3 =>
                          match skip_ws r3 with
                          | String c4 r4 =>
                              if Ascii.eqb c4 ","%char
                              then members n (skip_ws r4)
                              else if Ascii.eqb c4 "}"%char then Some r4
                              else None
                          | EmptyString => None
                          end
                      | None => None
                      end
                    else None
                | EmptyString => None
                end
            | None => None
            end
          else None
      | EmptyString => None
      end
  end
with elements (fuel : nat) (s : string) : option string :=
  match fuel with
  | O => None
  | S n =>
      match value n s with
      | Some r1 =>
          match skip_ws r1 with
          | String c2 r2 =>
              if Ascii.eqb c2 ","%char then elements n (skip_ws r2)
              else if Ascii.eqb c2 "]"%char then Some r2
              else None
          | EmptyString => None
          end
      | None => None
      end
  end.

(** Whether [JSON.parse(s)] returns (rather than throwing SyntaxError). *)
Definition parses (s : string) : bool :=
  match value (2 * String.length s + 2) (skip_ws s) with
  | Some r => String.eqb (skip_ws r) ""
  | None => false
  end.

End Json.

(** ** The file system, requests and responses *)

Module Fs.
(** What [fs.stat] finds at an absolute path: a regular file with its
    contents, or a directory.  A path absent from the map does not
    exist (ENOENT, ENOTDIR). *)
Inductive node :=
| File (data : string)
| Dir.
End Fs.

Record Request := {
  req_method : string;
  (** the path name of the request URL, as received *)
  req_path : string;
  (** the media type of the Content-Type header, in lower case and
      without parameters; [None] without a (well-formed) header *)
  req_content_type : option string;
  (** the Access-Control-Request-Headers header *)
  req_acrh : option string;
  (** the payload; [None] when the message has neither Content-Length
      nor Transfer-Encoding, [Some ""] for Content-Length: 0 *)
  req_body : option string
}.

Inductive Body :=
| FileContents (data : string)
(** finalhandler's page for a request nothing answered: "Cannot GET /x" *)
| NotFoundPage (method path : string)
(** finalhandler's page for an error passed to [next] *)
| ErrorPage (status : nat)
(** serve-static's "Redirecting to ..." page *)
| RedirectPage (location : string)
| NoBody.

Record Response := {
  status : nat;
  headers : gmap string string;
  body : Body
}.

(** The response object while handlers run: [res.statusCode] and the
    headers set so far. *)
Record Res := {
  statusCode : nat;
  res_headers : gmap string string
}.

Definition setHeader (name value : string) (res : Res) : Res :=
  {| statusCode := statusCode res;
     res_headers := <[name := value]> (res_headers res) |}.

(** An error handed to [next(err)]: [err.status] and [err.type]. *)
Record HttpError := {
  err_status : nat;
  err_type : string
}.

(** What a handler does with a request: call [next()], call [next(err)]
    (or throw), or end the response. *)
Inductive Step :=
| Next (res : Res)
| Throw (err : HttpError) (res : Res)
| Finish (resp : Response).

Definition Handler := Request -> Res -> Step.

Definition is_HEAD (req : Request) : bool := String.eqb (req_method req) "HEAD".

(** ** cors 2.8: [cors()] with its default options

    origin "*", methods "GET,HEAD,PUT,PATCH,POST,DELETE",
    preflightContinue false, optionsSuccessStatus 204. *)

Definition cors : Handler := fun req res =>
  if String.eqb (Str.to_upper (req_method req)) "OPTIONS" then
    (* preflight *)
    let res := setHeader "Access-Control-Allow-Origin" "*" res in
    let res := setHeader "Access-Control-Allow-Methods"
                         "GET,HEAD,PUT,PATCH,POST,DELETE" res in
    let res := setHeader "Vary" "Access-Control-Request-Headers" res in
    let res := match req_acrh req with
               | Some h =>
                   if String.eqb h "" then res
                   else setHeader "Access-Control-Allow-Headers" h res
               | None => res
               end in
    let res := setHeader "Content-Length" "0" res in
    Finish {| status := 204; headers := res_headers res; body := NoBody |}
  else
    (* actual response *)
    Next (setHeader "Access-Control-Allow-Origin" "*" res).

(** ** body-parser 1.20: [express.json()] with its default options

    type "application/json", limit "100kb", strict true. *)

Definition json_limit : nat := 100 * 1024.

Definition entity_parse_failed : HttpError :=
  {| err_status := 400; err_type := "entity.parse.failed" |}.

Definition entity_too_large : HttpError :=
  {| err_status := 413; err_type := "entity.too.large" |}.

(** Strict mode: the first character after white space is "{" or "[". *)
Definition strict_first_char (b : string) : bool :=
  match Json.skip_ws b with
  | String c _ => Ascii.eqb c "{"%char || Ascii.eqb c "["%char
  | EmptyString => false
  end.

(** The body parser's [parse]: an empty body is taken for "{}". *)
Definition json_parse_body (b : string) : bool :=
  if String.eqb b "" then true
  else strict_first_char b && Json.parses b.

(** The error the middleware raises for a request, if any. *)
Definition json_verdict (req : Request) : option HttpError :=
  match req_body req with
  | None => None                         (* no body to parse *)
  | Some b =>
      match req_content_type req with
      | Some ct =>
          if negb (String.eqb ct "application/json") then None
          else if json_limit <? String.length b then Some entity_too_large
          else if json_parse_body b then None
          else Some entity_parse_failed
      | None => None
      end
  end.

Definition express_json : Handler := fun req res =>
  match json_verdict req with
  | None => Next res
  | Some e => Throw e res
  end.

(** ** finalhandler 1.2: the answer when the router runs out of layers *)

Definition finalhandler (err : option HttpError) (req : Request) (res : Res)
  : Response :=
  let st := match err with
            | Some e =>
                if (400 <=? err_status e) && (err_status e <? 600)
                then err_status e else 500
            | None => 404
            end in
  let page := match err with
              | Some _ => ErrorPage st
              | None => NotFoundPage (req_method req) (req_path req)
              end in
  let res := setHeader "Content-Security-Policy" "default-src 'none'" res in
  let res := setHeader "X-Content-Type-Options" "nosniff" res in
  let res := setHeader "Content-Type" "text/html; charset=utf-8" res in
  {| status := st;
     headers := res_headers res;
     body := if is_HEAD req then NoBody else page |}.

(** ** send 0.18, serve-static 1.15, [res.sendFile], the router *)

Section Express.

(** The table of the mime package: extension to media type. *)
Variable mime_types : string -> option string.
(** [process.cwd()]. *)
Variable cwd : string.
Variable fs : gmap string Fs.node.

(** [path.replace(/^.*[\.\/\\]/, '')]: what follows the last ".", "/"
    or backslash. *)
Definition mime_ext (path : string) : string :=
  let is_cut c := Ascii.eqb c "."%char || Ascii.eqb c "/"%char
                  || Ascii.eqb c Chars.backslash in
  Str.to_lower (List.last (Str.split is_cut path) EmptyString).

(** [mime.lookup(path)]. *)
Definition mime_lookup (path : string) : string :=
  match mime_types (mime_ext path) with
  | Some t => t
  | None => "application/octet-stream"
  end.

(** [mime.charsets.lookup(type)]: UTF-8 for text. *)
Definition mime_charset (type : string) : option string :=
  if bool_decide (is_Some (Str.strip_prefix "text/" type))
     || bool_decide (is_Some (Str.strip_prefix "application/javascript" type))
     || bool_decide (is_Some (Str.strip_prefix "application/json" type))
  then Some "UTF-8" else None.

(** The Content-Type header [send] derives from a file name. *)
Definition content_type_of (path : string) : string :=
  let t := mime_lookup path in
  match mime_charset t with
  | Some cs => t +:+ "; charset=" +:+ cs
  | None => t
  end.

(** What a send stream emits. *)
Inductive SendEvent :=
| SendFile (path data : string)     (* 'file', then the stream *)
| SendDirectory (path : string)     (* 'directory' *)
| SendError (st : nat).             (* 'error' *)

(** [UP_PATH_REGEXP]: a ".." between separators, slash or backslash. *)
Definition up_path (p : string) : bool :=
  let is_sep c := Ascii.eqb c "/"%char || Ascii.eqb c Chars.backslash in
  bool_decide (".." ∈ Str.split is_sep p).

Definition containsDotFile (parts : list string) : bool :=
  List.existsb
    (fun part => (1 <? String.length part)
                 && Str.starts_with_char "."%char part)
    parts.

(** Without a [dotfiles] option: a path whose last part starts with a
    dot is ignored (404), dot directories on the way are allowed. *)
Definition dotfile_ignored (parts : list string) : bool :=
  containsDotFile parts
  && Str.starts_with_char "."%char (List.last parts EmptyString).

Definition stat_error : nat := 404.

(** [SendStream.prototype.sendFile]. *)
Definition send_sendFile (path : string) : SendEvent :=
  match fs !! path with
  | None => SendError stat_error
  | Some Fs.Dir => SendDirectory path
  | Some (Fs.File data) => SendFile path data
  end.

(** [SendStream.prototype.sendIndex], index ["index.html"]. *)
Definition send_sendIndex (path : string) : SendEvent :=
  let p := Path.join [path; "index.html"] in
  match fs !! p with
  | Some (Fs.File data) => SendFile p data
  | Some Fs.Dir => SendError 404
  | None => SendError stat_error
  end.

(** [SendStream.prototype.pipe] after the path has been decoded;
    [trailing_slash] is [hasTrailingSlash()] of the path given. *)
Definition send_decoded (root : option string) (trailing_slash : bool)
                        (path : string) : SendEvent :=
  (* null byte(s) *)
  if Str.existsb (fun c => Ascii.eqb c Chars.nul) path then SendError 400 else
  let located :=
    match root with
    | Some root =>
        let path := if decide (path = "") then path
                    else Path.normalize ("./" +:+ path) in
        if up_path path then None
        else Some (Path.segments path,
                   Path.normalize (Path.join [root; path]))
    | None =>
        if up_path path then None
        else Some (Path.segments (Path.normalize path),
                   Path.resolve cwd path)
    end in
  match located with
  | None => SendError 403               (* malicious path *)
  | Some (parts, path) =>
      if dotfile_ignored parts then SendError 404
      else if trailing_slash then send_sendIndex path
      else send_sendFile path
  end.

Definition hasTrailingSlash (path : string) : bool :=
  Str.ends_with_char "/"%char path.

(** [send(req, path, {root}).pipe(res)]. *)
Definition send (root : option string) (path : string) : SendEvent :=
  match JS.decodeURIComponent path with
  | None => SendError 400
  | Some decoded => send_decoded root (hasTrailingSlash path) decoded
  end.

(** [SendStream.prototype.send]: the headers that do not depend on the
    file's dates, and the contents. *)
Definition send_stream (req : Request) (res : Res) (path data : string)
  : Response :=
  let res := setHeader "Accept-Ranges" "bytes" res in
  let res := setHeader "Cache-Control" "public, max-age=0" res in
  let res := match res_headers res !! "Content-Type" with
             | Some _ => res
             | None => setHeader "Content-Type" (content_type_of path) res
             end in
  {| status := statusCode res;
     headers := res_headers res;
     body := if is_HEAD req then NoBody else FileContents data |}.

Fixpoint collapseLeadingSlashes_go (s : string) : string :=
  match s with
  | String c r => if Ascii.eqb c "/"%char then collapseLeadingSlashes_go r else s
  | EmptyString => s
  end.

Definition collapseLeadingSlashes (s : string) : string :=
  match s with
  | String c1 (String c2 _) =>
      if Ascii.eqb c1 "/"%char && Ascii.eqb c2 "/"%char
      then "/" +:+ collapseLeadingSlashes_go s else s
  | _ => s
  end.

(** serve-static's directory listener ([redirect: true]). *)
Definition redirect_directory (req : Request) (res : Res) : Response :=
  let loc := collapseLeadingSlashes (req_path req +:+ "/") in
  let res := setHeader "Content-Type" "text/html; charset=UTF-8" res in
  let res := setHeader "Content-Security-Policy" "default-src 'none'" res in
  let res := setHeader "X-Content-Type-Options" "nosniff" res in
  let res := setHeader "Location" loc res in
  {| status := 301;
     headers := res_headers res;
     body := if is_HEAD req then NoBody else RedirectPage loc |}.

(** [express.static(root)]: serve-static with [fallthrough: true]. *)
Definition express_static (root : string) : Handler :=
  let root := Path.resolve cwd root in
  fun req res =>
    if negb (String.eqb (req_method req) "GET")
       && negb (String.eqb (req_method req) "HEAD")
    then Next res
    else
      match send (Some root) (req_path req) with
      | SendFile path data => Finish (send_stream req res path data)
      | SendDirectory _ =>
          if hasTrailingSlash (req_path req) then Next res
          else Finish (redirect_directory req res)
      | SendError st =>
          if st <? 500 then Next res
          else Throw {| err_status := st; err_type := "" |} res
      end.

(** [res.sendFile(path)] without options or callback.  The path is
    passed through [encodeURI] and decoded again by [send]; the two
    cancel out. *)
Definition res_sendFile (path : string) : Handler := fun req res =>
  if negb (Path.isAbsolute path)
  then Throw {| err_status := 500; err_type := "TypeError" |} res
  else
    match send_decoded None (hasTrailingSlash path) path with
    | SendFile p data => Finish (send_stream req res p data)
    | SendDirectory _ => Next res        (* EISDIR *)
    | SendError st => Throw {| err_status := st; err_type := "" |} res
    end.

(** *** The router *)

Inductive LayerName :=
| Lcors | Ljson | Lstatic
| Lroute (path : string).

Record Layer := {
  layer_name : LayerName;
  layer_match : Request -> bool;
  layer_handle : Handler
}.

(** [app.use(fn)]: mounted at "/", matches every request. *)
Definition use (name : LayerName) (fn : Handler) : Layer :=
  {| layer_name := name; layer_match := fun _ => true; layer_handle := fn |}.

(** The regular expression path-to-regexp builds for a literal route
    path, with [strict] and [sensitive] off: the path itself,
    whatever the case of its letters, with an optional "/" at the end. *)
Definition route_regexp (pattern path : string) : bool :=
  let base :=
    if Str.ends_with_char "/"%char pattern
    then String.substring 0 (String.length pattern - 1) pattern
    else pattern in
  let base := Str.to_lower base in
  let path := Str.to_lower path in
  String.eqb path base || String.eqb path (base +:+ "/").

(** [Route.prototype._handles_method] for a route with a GET handler
    only: HEAD falls back on GET. *)
Definition handles_get (method : string) : bool :=
  let name := Str.to_lower method in
  String.eqb name "get" || String.eqb name "head".

(** [app.get(path, fn)]. *)
Definition get (path : string) (fn : Handler) : Layer :=
  {| layer_name := Lroute path;
     layer_match := fun req =>
       route_regexp path (req_path req) && handles_get (req_method req);
     layer_handle := fn |}.

(** [router.handle]: the layers in the order of their registration.
    With an error pending every layer is passed over, none of them
    being an error handler; [trace] lists the layers whose handler ran. *)
Fixpoint router_handle (stack : list Layer) (err : option HttpError)
         (req : Request) (res : Res) (trace : list LayerName)
  : Response * list LayerName :=
  match stack with
  | [] => (finalhandler err req res, trace)
  | layer :: rest =>
      if negb (layer_match layer req)
      then router_handle rest err req res trace
      else
        match err with
        | Some _ => router_handle rest err req res trace
        | None =>
            let trace := trace ++ [layer_name layer] in
            match layer_handle layer req res with
            | Next res' => router_handle rest None req res' trace
            | Throw e res' => router_handle rest (Some e) req res' trace
            | Finish resp => (resp, trace)
            end
        end
  end.

(** The response object a request starts with: status 200, and the
    X-Powered-By header that Express' own first layer sets. *)
Definition initial_res : Res :=
  {| statusCode := 200; res_headers := {["X-Powered-By" := "Express"]} |}.

(** [app.handle]. *)
Definition app_handle (stack : list Layer) (req : Request)
  : Response * list LayerName :=
  router_handle stack None req initial_res [].

(** ** server.js *)

(** Lines 9-24, for the directory [__dirname] of the file. *)
Definition app (__dirname : string) : list Layer :=
  [ use Lcors cors;
    use Ljson express_json;
    use Lstatic (express_static (Path.join [__dirname; "src"]));
    get "/" (res_sendFile (Path.join [__dirname; "src"; "index.html"]));
    get "/verify" (res_sendFile (Path.join [__dirname; "src"; "verify.html"]))
  ].

End Express.

(** *** Start-up: lines 7, 14-15 and 26-30 *)

(** [dotenv.config()]: the variables of the .env file, when there is
    one, are added to [process.env]; a variable already set is kept. *)
Definition dotenv_config (dotenv : option (gmap string string))
                         (env : gmap string string) : gmap string string :=
  match dotenv with
  | Some parsed => env ∪ parsed
  | None => env
  end.

(** An encoded "/" ("%2f", "%2F") in a path name. *)
Fixpoint has_encoded_slash (s : string) : bool :=
  match s with
  | String c r =>
      (Ascii.eqb c "%"%char
       && match r with
          | String c1 (String c2 _) =>
              Ascii.eqb c1 "2"%char
              && (Ascii.eqb c2 "f"%char || Ascii.eqb c2 "F"%char)
          | _ => false
          end)
      || has_encoded_slash r
  | EmptyString => false
  end.

(** [fileURLToPath(url)] on POSIX, for a URL in the normal form the
    module loader gives to [import.meta.url]: scheme "file", empty host,
    no encoded slash; the path name is percent-decoded.  [None] stands
    for the TypeError thrown otherwise. *)
Definition fileURLToPath (url : string) : option string :=
  match Str.strip_prefix "file://" url with
  | None => None
  | Some pathname =>
      if negb (Path.isAbsolute pathname) then None
      else if has_encoded_slash pathname then None
      else JS.decodeURIComponent pathname
  end.

(** Line 17: the directory handed to [express.static]. *)
Definition static_dir (__dirname : string) : string :=
  Path.join [__dirname; "src"].

(** Line 26. *)
Definition PORT (env : gmap string string) : JS.value :=
  JS.or (JS.env_get env "PORT") (JS.Num 3000%N).

(** The TCP port [server.listen(port)] binds for a number in range or
    its decimal spelling.  Other strings are not resolved here (Node
    takes a string that is not a number for the name of a pipe). *)
Definition listen_port (port : JS.value) : option N :=
  match port with
  | JS.Num n => if (n <=? 65535)%N then Some n else None
  | JS.Str s =>
      match JS.decimal s with
      | Some n => if (n <=? 65535)%N then Some n else None
      | None => None
      end
  | JS.Undefined => None
  end.

Record Process := {
  (** [process.env] when the program starts *)
  proc_env : gmap string string;
  (** [process.cwd()] *)
  proc_cwd : string;
  (** the parsed .env file of the working directory, if there is one *)
  proc_dotenv : option (gmap string string);
  (** [import.meta.url] of server.js *)
  import_meta_url : string
}.

Record Server := {
  (** the static root as serve-static resolves it *)
  server_root : string;
  server_app : list Layer;
  (** the argument of [app.listen] *)
  server_listen : JS.value
}.

(** The module body of server.js; [None] when it throws. *)
Definition main (mime_types : string -> option string)
                (fs : gmap string Fs.node) (p : Process) : option Server :=
  let env := dotenv_config (proc_dotenv p) (proc_env p) in
  match fileURLToPath (import_meta_url p) with
  | None => None
  | Some __filename =>
      let __dirname := Path.dirname __filename in
      Some {| server_root := Path.resolve (proc_cwd p) (static_dir __dirname);
              server_app := app mime_types (proc_cwd p) fs __dirname;
              server_listen := PORT env |}
  end.

(** ** Vocabulary of the statements *)

(** A file or directory name without surprises: not empty, not "." or
    "..", free of "/", backslash and NUL. *)
Definition plain_name (s : string) : bool :=
  negb (String.eqb s "") && negb (String.eqb s ".") && negb (String.eqb s "..")
  && negb (Str.existsb
             (fun c => Ascii.eqb c "/"%char || Ascii.eqb c Chars.backslash
                       || Ascii.eqb c Chars.nul) s).

(** A character that stands for itself in the path of a request:
    printable ASCII other than "%", "?" and "#". *)
Definition url_char (c : ascii) : bool :=
  (33 <=? Chars.code c) && (Chars.code c <=? 126)
  && negb (Ascii.eqb c "%"%char || Ascii.eqb c "?"%char || Ascii.eqb c "#"%char).

(** A segment of a request path that names such a file as it stands:
    made of such characters, without a leading dot. *)
Definition plain_segment (s : string) : bool :=
  plain_name s
  && negb (Str.starts_with_char "."%char s)
  && negb (Str.existsb (fun c => negb (url_char c)) s).

(** The absolute path with the given segments. *)
Definition abs_path (segs : list string) : string :=
  "/" +:+ Str.join "/" segs.

(** The request path with the given segments. *)
Definition url_path (segs : list string) : string :=
  "/" +:+ Str.join "/" segs.

Definition response_of (r : Response * list LayerName) : Response := fst r.
Definition trace_of (r : Response * list LayerName) : list LayerName := snd r.


(** What [split] gives back from a [join]: the list itself, [[""]] for
    the empty list. *)
Definition parts_of (l : list string) : list string :=
  match l with
  | [] => [EmptyString]
  | _ => l
  end.

(** The response object as [express.static] receives it. *)
Definition res_after_cors : Res :=
  setHeader "Access-Control-Allow-Origin" "*" initial_res.

(** The header that opens a response to every origin. *)
Definition allows_any_origin (h : gmap string string) : Prop :=
  h !! "Access-Control-Allow-Origin" = Some "*".

(** A handler that leaves the header in place, whatever it does. *)
Definition keeps_origin (fn : Handler) : Prop :=
  forall req res,
    allows_any_origin (res_headers res) ->
    match fn req res with
    | Next res' | Throw _ res' => allows_any_origin (res_headers res')
    | Finish resp => allows_any_origin (headers resp)
    end.

(** The answer of the application of server.js installed in
    [__dirname] to one request, with the layers whose handlers ran. *)
Definition serve (mime_types : string -> option string) (cwd : string)
                 (fs : gmap string Fs.node) (__dirname : string)
                 (req : Request) : Response * list LayerName :=
  app_handle (app mime_types cwd fs __dirname) req.

(** ** A sample installation, for the concrete cases *)

Module Sample.

Definition mime_types (ext : string) : option string :=
  if String.eqb ext "html" then Some "text/html"
  else if String.eqb ext "css" then Some "text/css"
  else if String.eqb ext "js" then Some "application/javascript"
  else if String.eqb ext "png" then Some "image/png"
  else None.

Definition cwd : string := "/home/user".

Definition dirname : list string := ["srv"; "slicer"; "frontend"].

Definition fs : gmap string Fs.node :=
  {[ "/srv/slicer/frontend/src/index.html" := Fs.File "<h1>index</h1>";
     "/srv/slicer/frontend/src/verify.html" := Fs.File "<h1>verify</h1>";
     "/srv/slicer/frontend/src/css" := Fs.Dir;
     "/srv/slicer/frontend/src/css/site.css" := Fs.File "body{}";
     "/srv/slicer/frontend/src/.htaccess" := Fs.File "deny" ]}.

Definition request (method path : string) : Request :=
  {| req_method := method; req_path := path;
     req_content_type := None; req_acrh := None; req_body := None |}.

Definition json_request (method path body : string) : Request :=
  {| req_method := method; req_path := path;
     req_content_type := Some "application/json"; req_acrh := None;
     req_body := Some body |}.

Definition serve : Request -> Response * list LayerName :=
  serve mime_types cwd fs (abs_path dirname).

Definition process (env : gmap string string) (cwd : string) : Process :=
  {| proc_env := env; proc_cwd := cwd; proc_dotenv := None;
     import_meta_url := "file:///srv/slicer/frontend/server.js" |}.

End Sample.

(** ** Vocabulary of the further properties *)

(** The same request under another method, and without its body. *)
Definition with_method (method : string) (req : Request) : Request :=
  {| req_method := method;
     req_path := req_path req;
     req_content_type := req_content_type req;
     req_acrh := req_acrh req;
     req_body := req_body req |}.

Definition without_body (req : Request) : Request :=
  {| req_method := req_method req;
     req_path := req_path req;
     req_content_type := req_content_type req;
     req_acrh := req_acrh req;
     req_body := None |}.

(** A plain name made of characters that stand for themselves in a
    request path; unlike a plain segment it may start with a dot. *)
Definition url_name (s : string) : bool :=
  plain_name s && negb (Str.existsb (fun c => negb (url_char c)) s).

(** A name as [path.normalize] leaves it in an absolute path: not
    empty, not "." or "..", without "/". *)
Definition clean_name (s : string) : bool :=
  negb (String.eqb s "") && negb (String.eqb s ".") && negb (String.eqb s "..")
  && negb (Str.existsb Path.is_sep s).

(** The segments [path.normalize] keeps when none of them is "..". *)
Definition kept (segs : list string) : list string :=
  List.filter (fun s => negb (String.eqb s "") && negb (String.eqb s ".")) segs.

(** [p] lies inside the directory [root]: it is [root] followed by
    clean names, none of them "..", with or without a "/" at the end. *)
Definition inside (root : list string) (p : string) : Prop :=
  exists names, forallb clean_name names = true
    /\ (p = abs_path (root ++ names) \/ p = abs_path (root ++ names) +:+ "/").

(** Two handlers' steps that differ at most in the response they end
    with, which [R] relates. *)
Definition step_related (R : Response -> Response -> Prop) (s1 s2 : Step)
  : Prop :=
  match s1, s2 with
  | Next a, Next b => a = b
  | Throw e a, Throw f b => e = f /\ a = b
  | Finish x, Finish y => R x y
  | _, _ => False
  end.

(** [r2] answers a HEAD request as [r1] answers the GET request: same
    status, same headers, no body. *)
Definition head_of (r1 r2 : Response) : Prop :=
  status r2 = status r1 /\ headers r2 = headers r1 /\ body r2 = NoBody.


(** Further concrete cases. *)
Module Cases.





(** A .env file that sets the port. *)
Definition dotenv : gmap string string := {[ "PORT" := "8080" ]}.

Definition process (env : gmap string string)
                   (dotenv : option (gmap string string)) : Process :=
  {| proc_env := env; proc_cwd := "/home/user"; proc_dotenv := dotenv;
     import_meta_url := "file:///srv/slicer/frontend/server.js" |}.

End Cases.

(** * Properties *)

(** ** Worked examples of the library functions *)

Example normalize_ex1 : Path.normalize "/a/./b/../c//d/" = "/a/c/d/".
Proof. reflexivity. Qed.
Example normalize_ex2 : Path.normalize ".//x/../../y" = "../y".
Proof. reflexivity. Qed.
Example join_ex1 : Path.join ["/srv/app/frontend"; "src"; "index.html"]
                   = "/srv/app/frontend/src/index.html".
Proof. reflexivity. Qed.
Example dirname_ex1 : Path.dirname "/srv/app/frontend/server.js" = "/srv/app/frontend".
Proof. reflexivity. Qed.
Example dirname_ex2 : Path.dirname "/a//b" = "/a/".
Proof. reflexivity. Qed.
Example dirname_ex3 : Path.dirname "/server.js" = "/".
Proof. reflexivity. Qed.
Example resolve_ex1 : Path.resolve "/home/u" "x/../y" = "/home/u/y".
Proof. reflexivity. Qed.
Example resolve_ex2 : Path.resolve "/home/u" "/srv/app/src" = "/srv/app/src".
Proof. reflexivity. Qed.
Example json_ok1 : Json.parses "{}" = true. Proof. reflexivity. Qed.
Example json_ok2 :
  Json.parses (" { " +:+ String Chars.quote ("a" +:+ String Chars.quote
               " : [1, -2.5e+3, true, null, {}] } ")) = true.
Proof. reflexivity. Qed.
Example json_bad1 : Json.parses "{" = false. Proof. reflexivity. Qed.
Example json_bad2 : Json.parses "[1,]" = false. Proof. reflexivity. Qed.
Example json_bad3 : Json.parses "[01]" = false. Proof. reflexivity. Qed.
Example json_bad4 : Json.parses "" = false. Proof. reflexivity. Qed.
Example json_ok3 : Json.parses "12" = true. Proof. reflexivity. Qed.
Example decode_ex1 : JS.decodeURIComponent "/a%20b" = Some "/a b".
Proof. reflexivity. Qed.
Example decode_ex2 : JS.decodeURIComponent "/a%2" = None.
Proof. reflexivity. Qed.

(** ** Strings *)

Lemma sapp_nil_l (s : string) : "" +:+ s = s.
Proof. reflexivity. Qed.

Lemma sapp_cons (c : ascii) (a b : string) :
  String c a +:+ b = String c (a +:+ b).
Proof. reflexivity. Qed.

Lemma sapp_nil_r (s : string) : s +:+ "" = s.
Proof. induction s as [|c s IH]; [done|]. by rewrite sapp_cons, IH. Qed.

Lemma sapp_assoc (a b c : string) : (a +:+ b) +:+ c = a +:+ b +:+ c.
Proof. induction a as [|x a IH]; [done|]. by rewrite !sapp_cons, IH. Qed.

Lemma sapp_eq_nil (a b : string) : a +:+ b = "" -> a = "" /\ b = "".
Proof. destruct a; [done|]. by rewrite sapp_cons. Qed.

Lemma existsb_app (p : ascii -> bool) (a b : string) :
  Str.existsb p (a +:+ b) = Str.existsb p a || Str.existsb p b.
Proof.
  induction a as [|x a IH]; [done|].
  rewrite sapp_cons. simpl. by rewrite IH, orb_assoc.
Qed.

Lemma last_cons (x : ascii) (s : string) :
  Str.last (String x s) = match Str.last s with
                          | Some c => Some c
                          | None => Some x
                          end.
Proof.
  destruct s as [|y s]; [done|].
  change (Str.last (String x (String y s))) with (Str.last (String y s)).
  destruct (Str.last (String y s)) eqn:E; [done|].
  exfalso. clear x. revert y E.
  induction s as [|z s IH]; intros y E; [done|].
  by apply (IH z).
Qed.

Lemma last_app (a b : string) :
  Str.last (a +:+ b) = match Str.last b with
                       | Some c => Some c
                       | None => Str.last a
                       end.
Proof.
  induction a as [|x a IH].
  - rewrite sapp_nil_l. by destruct (Str.last b).
  - rewrite sapp_cons, !last_cons, IH.
    by destruct (Str.last b), (Str.last a).
Qed.

Lemma last_no (p : ascii -> bool) (s : string) (c : ascii) :
  Str.existsb p s = false -> Str.last s = Some c -> p c = false.
Proof.
  induction s as [|x s IH]; [done|]. simpl.
  intros [Hx Hs]%orb_false_iff. destruct s; [naive_solver|]. by apply IH.
Qed.

Lemma split_nonempty (f : ascii -> bool) (s : string) : Str.split f s <> [].
Proof.
  destruct s as [|c s]; [done|]. simpl.
  destruct (f c); [done|]. by destruct (Str.split f s).
Qed.

Lemma split_app_sep (f : ascii -> bool) (a : string) (c : ascii) (b : string) :
  f c = true ->
  Str.split f (a +:+ String c b) = Str.split f a ++ Str.split f b.
Proof.
  intros Hc. induction a as [|x a IH].
  - rewrite sapp_nil_l. simpl. by rewrite Hc.
  - rewrite sapp_cons. simpl. rewrite IH.
    destruct (f x); [done|].
    pose proof (split_nonempty f a). by destruct (Str.split f a).
Qed.

Lemma split_no_sep (f : ascii -> bool) (s : string) :
  Str.existsb f s = false -> Str.split f s = [s].
Proof.
  induction s as [|x s IH]; [done|]. simpl.
  intros [-> Hs]%orb_false_iff. by rewrite IH.
Qed.

Lemma join_cons (sep x : string) (r : list string) :
  r <> [] -> Str.join sep (x :: r) = x +:+ sep +:+ Str.join sep r.
Proof. by destruct r. Qed.

Lemma join_app (sep : string) (l1 l2 : list string) :
  l1 <> [] -> l2 <> [] ->
  Str.join sep (l1 ++ l2) = Str.join sep l1 +:+ sep +:+ Str.join sep l2.
Proof.
  intros H1 H2. induction l1 as [|x l1 IH]; [done|].
  destruct l1 as [|y l1].
  - change ([x] ++ l2) with (x :: l2). by rewrite join_cons.
  - change ((x :: y :: l1) ++ l2) with (x :: ((y :: l1) ++ l2)).
    rewrite join_cons by (simpl; discriminate).
    rewrite IH by done. rewrite (join_cons _ x (y :: l1)) by done.
    by rewrite !sapp_assoc.
Qed.

Lemma split_join (f : ascii -> bool) (c : ascii) (l : list string) :
  f c = true ->
  Forall (fun x => Str.existsb f x = false) l ->
  Str.split f (Str.join (String c "") l) = parts_of l.
Proof.
  intros Hc Hl. induction Hl as [|x l Hx Hl IH]; [done|].
  destruct l as [|y l].
  - simpl. by apply split_no_sep.
  - rewrite join_cons by done. rewrite sapp_cons, sapp_nil_l.
    rewrite split_app_sep by done. rewrite IH. by rewrite split_no_sep.
Qed.

Lemma existsb_join (p : ascii -> bool) (c : ascii) (l : list string) :
  p c = false ->
  Forall (fun x => Str.existsb p x = false) l ->
  Str.existsb p (Str.join (String c "") l) = false.
Proof.
  intros Hc Hl. induction Hl as [|x l Hx Hl IH]; [done|].
  destruct l as [|y l]; [done|].
  rewrite join_cons by done. rewrite !existsb_app, Hx, IH. simpl.
  by rewrite Hc.
Qed.

Lemma decode_no_escape (s : string) :
  Str.existsb (fun c => Ascii.eqb c "%"%char) s = false ->
  JS.decodeURIComponent s = Some s.
Proof.
  induction s as [|x s IH]; [done|]. simpl.
  intros [-> Hs]%orb_false_iff. by rewrite IH.
Qed.

(** ** Plain names and the [path] functions *)

Lemma existsb_weaken (p q : ascii -> bool) (s : string) :
  (forall c, q c = true -> p c = true) ->
  Str.existsb p s = false -> Str.existsb q s = false.
Proof.
  intros Hpq. induction s as [|x s IH]; [done|]. simpl.
  intros [Hx Hs]%orb_false_iff. rewrite IH by done.
  destruct (q x) eqn:E; [|done]. apply Hpq in E. congruence.
Qed.

Lemma plain_name_inv (s : string) :
  plain_name s = true ->
  s <> "" /\ s <> "." /\ s <> ".."
  /\ Str.existsb Path.is_sep s = false
  /\ Str.existsb (fun c => Ascii.eqb c "/"%char || Ascii.eqb c Chars.backslash) s = false
  /\ Str.existsb (fun c => Ascii.eqb c Chars.nul) s = false.
Proof.
  unfold plain_name. rewrite !andb_true_iff, !negb_true_iff.
  intros [[[H1 H2] H3] H4].
  apply String.eqb_neq in H1, H2, H3.
  repeat split; try done;
    (eapply existsb_weaken; [|exact H4]); intros c Hc; simpl;
    unfold Path.is_sep in *; rewrite ?Hc; by rewrite ?orb_true_r.
Qed.

Lemma plain_segment_inv (s : string) :
  plain_segment s = true ->
  plain_name s = true
  /\ Str.starts_with_char "."%char s = false
  /\ Str.existsb (fun c => Ascii.eqb c "%"%char) s = false.
Proof.
  unfold plain_segment. rewrite !andb_true_iff, !negb_true_iff.
  intros [[Hn Hd] Hu]. repeat split; try done.
  eapply existsb_weaken; [|exact Hu].
  by intros c ->%Ascii.eqb_eq.
Qed.

Lemma forallb_plain_segment_name (l : list string) :
  forallb plain_segment l = true -> forallb plain_name l = true.
Proof.
  rewrite !forallb_forall. intros H x Hx.
  by apply plain_segment_inv, H.
Qed.

Lemma plain_Forall (P : string -> Prop) (l : list string) :
  (forall s, plain_name s = true -> P s) ->
  forallb plain_name l = true -> Forall P l.
Proof.
  intros HP Hl. apply Forall_forall. intros x Hx. apply HP.
  rewrite forallb_forall in Hl. by apply Hl, list_elem_of_In.
Qed.

Lemma normalize_go_nil (a : bool) (st : list string) :
  Path.normalize_go a st [] = rev st.
Proof. reflexivity. Qed.

Lemma normalize_go_empty (a : bool) (st l : list string) :
  Path.normalize_go a st ("" :: l) = Path.normalize_go a st l.
Proof. reflexivity. Qed.


Lemma normalize_go_plain (a : bool) (st : list string) (s : string) (l : list string) :
  plain_name s = true ->
  Path.normalize_go a st (s :: l) = Path.normalize_go a (s :: st) l.
Proof.
  intros (H1 & H2 & H3 & _)%plain_name_inv. cbn [Path.normalize_go].
  rewrite decide_False by (by intros [?|?]). by rewrite decide_False.
Qed.

Lemma normalize_go_plain_app (a : bool) (l l' st : list string) :
  forallb plain_name l = true ->
  Path.normalize_go a st (l ++ l') = Path.normalize_go a (rev l ++ st) l'.
Proof.
  revert st. induction l as [|x l IH]; intros st Hl; [done|].
  simpl in Hl. apply andb_true_iff in Hl as [Hx Hl].
  change ((x :: l) ++ l') with (x :: (l ++ l')).
  rewrite normalize_go_plain, IH by done.
  simpl rev. by rewrite <- List.app_assoc.
Qed.

Lemma normalize_go_all_plain (a : bool) (l st : list string) :
  forallb plain_name l = true ->
  Path.normalize_go a st l = rev st ++ l.
Proof.
  intros Hl. rewrite <- (List.app_nil_r l) at 1.
  rewrite normalize_go_plain_app, normalize_go_nil by done.
  by rewrite rev_app_distr, rev_involutive.
Qed.

Lemma normalize_go_parts (a : bool) (l l' st : list string) :
  forallb plain_name l = true ->
  Path.normalize_go a st (parts_of l ++ l') = Path.normalize_go a (rev l ++ st) l'.
Proof.
  intros Hl. destruct l as [|x l]; [done|].
  by apply normalize_go_plain_app.
Qed.

Lemma segments_join (l : list string) :
  forallb plain_name l = true ->
  Path.segments (Str.join "/" l) = parts_of l.
Proof.
  intros Hl. apply (split_join Path.is_sep "/"%char); [done|].
  revert Hl. apply plain_Forall. by intros s (_ & _ & _ & H & _)%plain_name_inv.
Qed.

Lemma segments_abs_under (ds : list string) (x : string) :
  forallb plain_name ds = true ->
  Path.segments (abs_path ds +:+ "/" +:+ x)
  = "" :: parts_of ds ++ Path.segments x.
Proof.
  intros Hds. unfold abs_path, Path.segments.
  rewrite !sapp_cons, !sapp_nil_l. simpl. f_equal.
  rewrite split_app_sep by done. f_equal. by apply segments_join.
Qed.

Lemma segments_abs (ds : list string) :
  forallb plain_name ds = true ->
  Path.segments (abs_path ds) = "" :: parts_of ds.
Proof.
  intros Hds. unfold abs_path, Path.segments.
  rewrite !sapp_cons, !sapp_nil_l. simpl. f_equal. by apply segments_join.
Qed.

Lemma join_plain_nonempty (l : list string) :
  forallb plain_name l = true -> l <> [] -> Str.join "/" l <> "".
Proof.
  intros Hl Hne. destruct l as [|x l]; [done|].
  simpl in Hl. apply andb_true_iff in Hl as [(Hx & _)%plain_name_inv _].
  destruct l as [|y l]; [done|].
  rewrite join_cons by done. by intros [? _]%sapp_eq_nil.
Qed.

(** A joined list of plain names ends with a character of its last name,
    which is no separator. *)
Lemma last_join_plain (l : list string) :
  forallb plain_name l = true -> l <> [] ->
  exists c, Str.last (Str.join "/" l) = Some c /\ Path.is_sep c = false.
Proof.
  intros Hl Hne. induction l as [|x l IH]; [done|].
  simpl in Hl. apply andb_true_iff in Hl as [Hx Hl].
  destruct l as [|y l].
  - simpl. apply plain_name_inv in Hx as (Hx & _ & _ & Hs & _).
    destruct (Str.last x) as [c|] eqn:E.
    + exists c. split; [done|]. by eapply last_no.
    + destruct x as [|a r]; [done|]. rewrite last_cons in E.
      by destruct (Str.last r).
  - rewrite join_cons by done.
    destruct IH as (c & Hc & Hsep); [done..|].
    exists c. split; [|done]. by rewrite !last_app, Hc.
Qed.

Lemma ends_with_join_plain (pre : string) (l : list string) :
  forallb plain_name l = true -> l <> [] ->
  Str.ends_with_char "/"%char (pre +:+ Str.join "/" l) = false.
Proof.
  intros Hl Hne. destruct (last_join_plain l Hl Hne) as (c & Hc & Hsep).
  unfold Str.ends_with_char. rewrite last_app, Hc.
  unfold Path.is_sep in Hsep. by rewrite Ascii.eqb_sym.
Qed.

Lemma ends_with_app_slash (pre x : string) :
  Str.ends_with_char "/"%char (pre +:+ "/" +:+ x)
  = Str.ends_with_char "/"%char ("/" +:+ x).
Proof.
  unfold Str.ends_with_char. rewrite !last_app.
  by destruct (Str.last x).
Qed.

(** [path.normalize] below an absolute directory of plain names. *)
Lemma normalize_under (ds : list string) (x : string) (l : list string) :
  forallb plain_name ds = true ->
  Path.normalize_go false (rev ds) (Path.segments x) = l ->
  forallb plain_name l = true -> l <> [] ->
  Path.normalize (abs_path ds +:+ "/" +:+ x)
  = abs_path l +:+ (if Str.ends_with_char "/"%char ("/" +:+ x) then "/" else "").
Proof.
  intros Hds Hl Hplain Hne. unfold Path.normalize.
  rewrite decide_False by (unfold abs_path; by rewrite !sapp_cons).
  assert (Path.isAbsolute (abs_path ds +:+ "/" +:+ x) = true) as -> by done.
  simpl negb. unfold Path.normalizeString.
  rewrite segments_abs_under, normalize_go_empty by done.
  rewrite normalize_go_parts by done. rewrite List.app_nil_r, Hl.
  rewrite decide_False by by apply join_plain_nonempty.
  rewrite (ends_with_app_slash (abs_path ds)). unfold abs_path at 1.
  destruct (Str.ends_with_char "/"%char ("/" +:+ x)).
  - by rewrite !sapp_assoc.
  - by rewrite sapp_nil_r.
Qed.

Lemma abs_path_nonempty (ds : list string) : abs_path ds <> "".
Proof. done. Qed.

Lemma path_join2 (a b : string) :
  a <> "" -> b <> "" -> Path.join [a; b] = Path.normalize (a +:+ "/" +:+ b).
Proof.
  intros Ha Hb. unfold Path.join.
  rewrite filter_cons_True, filter_cons_True by done. by rewrite filter_nil.
Qed.

Lemma path_join3 (a b c : string) :
  a <> "" -> b <> "" -> c <> "" ->
  Path.join [a; b; c] = Path.normalize (a +:+ "/" +:+ b +:+ "/" +:+ c).
Proof.
  intros Ha Hb Hc. unfold Path.join.
  rewrite !filter_cons_True by done. by rewrite filter_nil.
Qed.

(** [path.join(dir, name, ...)] for plain names. *)
Lemma path_join_under (ds ss : list string) :
  forallb plain_name ds = true -> forallb plain_name ss = true -> ss <> [] ->
  Path.join [abs_path ds; Str.join "/" ss] = abs_path (ds ++ ss).
Proof.
  intros Hds Hss Hne.
  rewrite path_join2 by (try apply join_plain_nonempty; done).
  rewrite (normalize_under ds _ (ds ++ ss)); try done.
  - rewrite ends_with_join_plain by done. by rewrite sapp_nil_r.
  - rewrite segments_join by done.
    destruct ss as [|s ss]; [done|]. simpl parts_of.
    rewrite normalize_go_all_plain by done. by rewrite rev_involutive.
  - by rewrite forallb_app, Hds, Hss.
  - by destruct ds, ss.
Qed.

Lemma normalize_abs (l : list string) :
  forallb plain_name l = true -> Path.normalize (abs_path l) = abs_path l.
Proof.
  intros Hl. destruct l as [|x l]; [done|].
  unfold Path.normalize. rewrite decide_False by done.
  assert (Path.isAbsolute (abs_path (x :: l)) = true) as -> by done.
  simpl negb. unfold Path.normalizeString.
  rewrite segments_abs, normalize_go_empty by done. simpl parts_of.
  rewrite normalize_go_all_plain by done. cbn [rev List.app].
  rewrite decide_False by by apply join_plain_nonempty.
  unfold abs_path. by rewrite ends_with_join_plain.
Qed.

Lemma resolve_abs (cwd : string) (l : list string) :
  forallb plain_name l = true -> Path.resolve cwd (abs_path l) = abs_path l.
Proof.
  intros Hl. unfold Path.resolve. rewrite decide_False by done.
  assert (Path.isAbsolute (abs_path l) = true) as -> by done.
  simpl negb. cbv iota beta. unfold Path.normalizeString.
  rewrite <- (sapp_nil_r (abs_path l +:+ "/")), sapp_assoc.
  rewrite segments_abs_under, normalize_go_empty by done.
  rewrite normalize_go_parts by done. simpl.
  by rewrite List.app_nil_r, rev_involutive.
Qed.

(** ** [send] on plain paths *)

Lemma not_elem_of_parts (l : list string) :
  forallb plain_name l = true -> ".." ∉ parts_of l.
Proof.
  intros Hl. destruct l as [|x l]; [by intros ?%list_elem_of_singleton|].
  simpl parts_of. intros Hin%list_elem_of_In.
  rewrite forallb_forall in Hl. by apply Hl in Hin.
Qed.


Lemma up_path_abs (l : list string) :
  forallb plain_name l = true -> up_path (abs_path l) = false.
Proof.
  intros Hl. unfold up_path, abs_path. apply bool_decide_eq_false.
  rewrite sapp_cons, sapp_nil_l. simpl Str.split.
  rewrite (split_join _ "/"%char) by
    (try done; revert Hl; apply plain_Forall;
     by intros s (_ & _ & _ & _ & H & _)%plain_name_inv).
  intros [?|Hin]%elem_of_cons; [done|]. by apply not_elem_of_parts in Hin.
Qed.

Lemma no_nul_join (pre : string) (l : list string) :
  Str.existsb (fun c => Ascii.eqb c Chars.nul) pre = false ->
  forallb plain_name l = true ->
  Str.existsb (fun c => Ascii.eqb c Chars.nul) (pre +:+ Str.join "/" l) = false.
Proof.
  intros Hpre Hl. rewrite existsb_app, Hpre. simpl.
  apply (existsb_join _ "/"%char); [done|].
  revert Hl. apply plain_Forall.
  by intros s (_ & _ & _ & _ & _ & H)%plain_name_inv.
Qed.


Lemma no_nul_abs_path (ss : list string) :
  forallb plain_name ss = true ->
  Str.existsb (fun c => Ascii.eqb c Chars.nul) (abs_path ss) = false.
Proof. intros Hss. by apply no_nul_join. Qed.

Lemma no_escape_url_path (ss : list string) :
  forallb plain_segment ss = true ->
  Str.existsb (fun c => Ascii.eqb c "%"%char) (url_path ss) = false.
Proof.
  intros Hss. unfold url_path. rewrite existsb_app. simpl.
  apply (existsb_join _ "/"%char); [done|].
  apply Forall_forall. intros s Hs%list_elem_of_In.
  rewrite forallb_forall in Hss. apply Hss in Hs.
  by apply plain_segment_inv in Hs as (_ & _ & ?).
Qed.



Section SendFacts.

Variable cwd : string.
Variable fs : gmap string Fs.node.



(** [res.sendFile] on an absolute path of plain names whose last name
    does not start with a dot. *)
Lemma send_absolute (ps : list string) :
  forallb plain_name ps = true -> ps <> [] ->
  Str.starts_with_char "."%char (List.last ps EmptyString) = false ->
  send_decoded cwd fs None (hasTrailingSlash (abs_path ps)) (abs_path ps)
  = send_sendFile fs (abs_path ps).
Proof.
  intros Hps Hne Hlast. unfold send_decoded.
  rewrite no_nul_abs_path by done.
  rewrite up_path_abs by done.
  rewrite normalize_abs, segments_abs by done.
  unfold dotfile_ignored.
  assert (List.last ("" :: parts_of ps) EmptyString = List.last ps EmptyString) as ->.
  { destruct ps as [|p ps]; [done|]. reflexivity. }
  rewrite Hlast, andb_false_r.
  rewrite resolve_abs by done.
  unfold hasTrailingSlash, abs_path. by rewrite ends_with_join_plain.
Qed.

End SendFacts.

(** ** The layers of server.js, one by one *)

Lemma static_root_plain (cwd : string) (ds : list string) :
  forallb plain_name ds = true ->
  Path.resolve cwd (Path.join [abs_path ds; "src"]) = abs_path (ds ++ ["src"]).
Proof.
  intros Hds. change "src" with (Str.join "/" ["src"]).
  rewrite path_join_under by done. apply resolve_abs.
  by rewrite forallb_app, Hds.
Qed.

Lemma path_join3_under (ds : list string) (b c : string) :
  forallb plain_name ds = true -> plain_name b = true -> plain_name c = true ->
  Path.join [abs_path ds; b; c] = abs_path (ds ++ [b; c]).
Proof.
  intros Hds Hb Hc.
  pose proof (plain_name_inv _ Hb) as (? & _).
  pose proof (plain_name_inv _ Hc) as (? & _).
  rewrite path_join3 by done.
  rewrite <- (path_join2 _ (b +:+ "/" +:+ c)) by (try done; by destruct b).
  change (b +:+ "/" +:+ c) with (Str.join "/" [b; c]).
  apply path_join_under; [done| |done]. simpl. by rewrite Hb, Hc.
Qed.

Lemma cors_next (req : Request) (res : Res) :
  Str.to_upper (req_method req) <> "OPTIONS" ->
  cors req res = Next (setHeader "Access-Control-Allow-Origin" "*" res).
Proof.
  intros H. unfold cors. apply String.eqb_neq in H. by rewrite H.
Qed.

Lemma express_json_next (req : Request) (res : Res) :
  json_verdict req = None -> express_json req res = Next res.
Proof. intros H. unfold express_json. by rewrite H. Qed.



(** ** The cross-origin header survives every layer *)

Lemma setHeader_keeps (name value : string) (res : Res) :
  name <> "Access-Control-Allow-Origin" ->
  allows_any_origin (res_headers res) ->
  allows_any_origin (res_headers (setHeader name value res)).
Proof.
  intros Hne H. unfold allows_any_origin, setHeader. simpl.
  by rewrite lookup_insert_ne.
Qed.

Lemma finalhandler_keeps (err : option HttpError) (req : Request) (res : Res) :
  allows_any_origin (res_headers res) ->
  allows_any_origin (headers (finalhandler err req res)).
Proof.
  intros H. unfold finalhandler. cbn [headers].
  by repeat apply setHeader_keeps.
Qed.

Lemma express_json_keeps : keeps_origin express_json.
Proof.
  intros req res H. unfold express_json. by destruct (json_verdict req).
Qed.

Lemma router_handle_cons (layer : Layer) (rest : list Layer)
      (err : option HttpError) (req : Request) (res : Res)
      (trace : list LayerName) :
  router_handle (layer :: rest) err req res trace
  = if negb (layer_match layer req)
    then router_handle rest err req res trace
    else match err with
         | Some _ => router_handle rest err req res trace
         | None =>
             match layer_handle layer req res with
             | Next res' =>
                 router_handle rest None req res' (trace ++ [layer_name layer])
             | Throw e res' =>
                 router_handle rest (Some e) req res' (trace ++ [layer_name layer])
             | Finish resp => (resp, trace ++ [layer_name layer])
             end
         end.
Proof. reflexivity. Qed.

(** One layer of the stack: unfold the router once and the layer's
    match and handler with it. *)
Ltac router_step :=
  rewrite router_handle_cons;
  cbn [use get layer_match layer_handle layer_name negb].


Section Keeps.

Variable mime_types : string -> option string.
Variable cwd : string.
Variable fs : gmap string Fs.node.

Lemma send_stream_keeps (req : Request) (res : Res) (p d : string) :
  allows_any_origin (res_headers res) ->
  allows_any_origin (headers (send_stream mime_types req res p d)).
Proof.
  intros H. unfold send_stream. cbn [headers].
  match goal with |- context [match ?x with _ => _ end] => destruct x end;
    by repeat apply setHeader_keeps.
Qed.

Lemma redirect_directory_keeps (req : Request) (res : Res) :
  allows_any_origin (res_headers res) ->
  allows_any_origin (headers (redirect_directory req res)).
Proof.
  intros H. unfold redirect_directory. cbn [headers].
  by repeat apply setHeader_keeps.
Qed.

Lemma express_static_keeps (root : string) :
  keeps_origin (express_static mime_types cwd fs root).
Proof.
  intros req res H. unfold express_static.
  destruct (_ && _); [done|].
  destruct (send cwd fs _ _) as [p d|p|st].
  - by apply send_stream_keeps.
  - destruct (hasTrailingSlash _); [done|]. by apply redirect_directory_keeps.
  - by destruct (st <? 500).
Qed.

Lemma res_sendFile_keeps (path : string) :
  keeps_origin (res_sendFile mime_types cwd fs path).
Proof.
  intros req res H. unfold res_sendFile.
  destruct (negb _); [done|].
  destruct (send_decoded cwd fs _ _ _) as [p d|p|st]; [|done..].
  by apply send_stream_keeps.
Qed.

(** The router hands the header on when all its layers do. *)
Lemma router_handle_keeps (stack : list Layer) :
  Forall (fun l => keeps_origin (layer_handle l)) stack ->
  forall err req res trace,
    allows_any_origin (res_headers res) ->
    allows_any_origin
      (headers (response_of (router_handle stack err req res trace))).
Proof.
  induction 1 as [|layer rest Hl Hrest IH]; intros err req res trace Hres.
  - by apply finalhandler_keeps.
  - rewrite router_handle_cons.
    destruct (negb (layer_match layer req)); [by apply IH|].
    destruct err; [by apply IH|].
    specialize (Hl req res Hres).
    destruct (layer_handle layer req res); [by apply IH..|done].
Qed.

(** C5. Every response of the server, whatever the method and the path
    of the request, carries the header Access-Control-Allow-Origin
    with the value "*". *)
Theorem C5_cors_header_on_every_response (dir : string) (req : Request) :
  headers (response_of (serve mime_types cwd fs dir req))
    !! "Access-Control-Allow-Origin" = Some "*".
Proof.
  unfold serve, app_handle, app. router_step.
  unfold cors at 1.
  destruct (String.eqb _ "OPTIONS").
  - cbn [response_of fst headers]. destruct (req_acrh req) as [h|].
    + by destruct (String.eqb h "").
    + done.
  - apply router_handle_keeps; [|done].
    repeat constructor; cbn [layer_handle use get].
    + apply express_json_keeps.
    + apply express_static_keeps.
    + apply res_sendFile_keeps.
    + apply res_sendFile_keeps.
Qed.

End Keeps.

(** ** Requests that reach the static middleware *)







Lemma last_app_nonempty {A : Type} (l1 l2 : list A) (d : A) :
  l2 <> [] -> List.last (l1 ++ l2) d = List.last l2 d.
Proof.
  intros Hne. induction l1 as [|x l1 IH]; [done|].
  change ((x :: l1) ++ l2) with (x :: (l1 ++ l2)).
  destruct (l1 ++ l2) eqn:E; [|by rewrite <- IH].
  by apply List.app_eq_nil in E as [_ ->].
Qed.


Section Handling.

Variable mime_types : string -> option string.
Variable cwd : string.
Variable fs : gmap string Fs.node.


(** [cors] answers every OPTIONS request itself. *)
Lemma serve_options (dir : string) (req : Request) :
  Str.to_upper (req_method req) = "OPTIONS" ->
  status (response_of (serve mime_types cwd fs dir req)) = 204
  /\ trace_of (serve mime_types cwd fs dir req) = [Lcors].
Proof.
  intros Hm. unfold serve, app_handle, app. router_step.
  unfold cors. by rewrite Hm.
Qed.

(** Past the two first layers the request meets the static
    middleware and the routes. *)
Lemma serve_past_json (dir : string) (req : Request) :
  Str.to_upper (req_method req) <> "OPTIONS" ->
  json_verdict req = None ->
  serve mime_types cwd fs dir req
  = router_handle
      [ use Lstatic (express_static mime_types cwd fs (Path.join [dir; "src"]));
        get "/" (res_sendFile mime_types cwd fs
                   (Path.join [dir; "src"; "index.html"]));
        get "/verify" (res_sendFile mime_types cwd fs
                         (Path.join [dir; "src"; "verify.html"])) ]
      None req res_after_cors [Lcors; Ljson].
Proof.
  intros Hm Hj. unfold serve, app_handle, app.
  router_step.
  rewrite cors_next by done.
  router_step.
  by rewrite express_json_next.
Qed.




(** [res.sendFile] of a file below the source directory. *)
Lemma res_sendFile_plain (ds : list string) (name : string)
      (req : Request) (res : Res) :
  forallb plain_name ds = true -> plain_segment name = true ->
  res_sendFile mime_types cwd fs (Path.join [abs_path ds; "src"; name]) req res
  = match fs !! abs_path (ds ++ ["src"; name]) with
    | Some (Fs.File d) =>
        Finish (send_stream mime_types req res (abs_path (ds ++ ["src"; name])) d)
    | Some Fs.Dir => Next res
    | None => Throw {| err_status := 404; err_type := "" |} res
    end.
Proof.
  intros Hds (Hn & Hdot & _)%plain_segment_inv.
  rewrite path_join3_under by done.
  assert (forallb plain_name (ds ++ ["src"; name]) = true) as Hall
    by (rewrite forallb_app, Hds; simpl; by rewrite Hn).
  unfold res_sendFile.
  assert (Path.isAbsolute (abs_path (ds ++ ["src"; name])) = true) as -> by done.
  simpl negb. cbv iota.
  rewrite send_absolute; [|done|by destruct ds|].
  - unfold send_sendFile.
    by destruct (fs !! abs_path (ds ++ ["src"; name])) as [[d|]|].
  - rewrite last_app_nonempty by done. done.
Qed.

End Handling.

Section FileResponses.

Variable mime_types : string -> option string.





End FileResponses.

(** ** The claims about request handling *)

Section RequestClaims.

Variable mime_types : string -> option string.
Variable cwd : string.
Variable fs : gmap string Fs.node.








End RequestClaims.

(** ** Start-up: the port and the static root *)

Lemma main_started (mime_types : string -> option string)
      (fs : gmap string Fs.node) (p : Process) (file : string) :
  fileURLToPath (import_meta_url p) = Some file ->
  main mime_types fs p
  = Some {| server_root :=
              Path.resolve (proc_cwd p) (static_dir (Path.dirname file));
            server_app := app mime_types (proc_cwd p) fs (Path.dirname file);
            server_listen :=
              PORT (dotenv_config (proc_dotenv p) (proc_env p)) |}.
Proof. intros H. unfold main. by rewrite H. Qed.

(** A variable of the process environment wins over the .env file. *)
Lemma dotenv_config_keeps (dotenv : option (gmap string string))
      (env : gmap string string) (name value : string) :
  env !! name = Some value -> dotenv_config dotenv env !! name = Some value.
Proof.
  intros H. destruct dotenv as [parsed|]; [|done]. simpl.
  by apply lookup_union_Some_l.
Qed.


(** C7 (amended). The value of PORT is never coerced: a non-empty
    string set in the environment is handed to [listen] as it is,
    whether it spells a number or not; 3000 is used only when the
    variable is missing or empty. *)
Theorem C7_port_is_the_string_as_set (env : gmap string string) :
  PORT env = match env !! "PORT" with
             | Some s => if String.eqb s "" then JS.Num 3000 else JS.Str s
             | None => JS.Num 3000
             end.
Proof.
  unfold PORT, JS.env_get, JS.or.
  destruct (env !! "PORT") as [s|]; [|done]. simpl.
  by destruct (String.eqb s "").
Qed.









(** ** Start-up from a server file of plain names *)

Lemma list_ascii_app (a b : string) :
  list_ascii_of_string (a +:+ b)
  = list_ascii_of_string a ++ list_ascii_of_string b.
Proof.
  induction a as [|x a IH]; [done|]. rewrite sapp_cons. simpl. by rewrite IH.
Qed.

Lemma existsb_chars (p : ascii -> bool) (s : string) :
  Str.existsb p s = List.existsb p (list_ascii_of_string s).
Proof. induction s as [|x s IH]; [done|]. simpl. by rewrite IH. Qed.

Lemma existsb_rev {A : Type} (p : A -> bool) (l : list A) :
  List.existsb p (rev l) = List.existsb p l.
Proof.
  induction l as [|x l IH]; [done|]. simpl.
  rewrite List.existsb_app, IH. simpl. rewrite orb_false_r. apply orb_comm.
Qed.

(** The scan of [dirname] runs over the last name and stops at the
    separator before it. *)
Lemma dirname_scan_name (name before : list ascii) (matched : bool) :
  List.existsb Path.is_sep name = false -> name <> [] ->
  Path.dirname_scan matched (rev name ++ "/"%char :: before) = Some before.
Proof.
  intros Hsep Hne.
  assert (forall l m, List.existsb Path.is_sep l = false ->
            Path.dirname_scan m (l ++ "/"%char :: before)
            = if m && bool_decide (l = []) then
                Path.dirname_scan true before
              else Some before) as Hscan.
  { induction l as [|c l IH]; intros m Hl.
    - simpl. by destruct m.
    - simpl in Hl. apply orb_false_iff in Hl as [Hc Hl].
      rewrite <- app_comm_cons. cbn [Path.dirname_scan]. rewrite Hc.
      rewrite IH by done. by rewrite andb_false_r. }
  rewrite Hscan.
  - rewrite bool_decide_eq_false_2, andb_false_r; [done|].
    intros E. apply (f_equal (@rev ascii)) in E.
    rewrite rev_involutive in E. by subst.
  - by rewrite existsb_rev.
Qed.

Lemma dirname_scan_no_sep (name : list ascii) :
  List.existsb Path.is_sep name = false ->
  Path.dirname_scan true name = None
  /\ Path.dirname_scan false name = None.
Proof.
  induction name as [|c l IH]; [done|]. simpl.
  intros [-> Hl]%orb_false_iff. destruct (IH Hl) as [_ H]. by rewrite H.
Qed.

(** [path.dirname] of a file in a directory of plain names. *)
Lemma dirname_abs (ds : list string) (name : string) :
  forallb plain_name ds = true -> plain_name name = true ->
  Path.dirname (abs_path (ds ++ [name])) = abs_path ds.
Proof.
  intros Hds (Hne & _ & _ & Hsep & _)%plain_name_inv.
  rewrite existsb_chars in Hsep.
  unfold abs_path at 1. rewrite sapp_cons, sapp_nil_l. unfold Path.dirname.
  change (Path.is_sep "/"%char) with true. cbv zeta iota.
  destruct ds as [|d ds].
  - change (Str.join "/" ([] ++ [name])) with name.
    destruct (dirname_scan_no_sep (rev (list_ascii_of_string name))) as [-> _];
      [by rewrite existsb_rev|done].
  - rewrite join_app by done. change (Str.join "/" [name]) with name.
    rewrite !list_ascii_app, !rev_app_distr.
    change (rev (list_ascii_of_string "/")) with ["/"%char].
    rewrite <- List.app_assoc.
    change (["/"%char] ++ rev (list_ascii_of_string (Str.join "/" (d :: ds))))
      with ("/"%char :: rev (list_ascii_of_string (Str.join "/" (d :: ds)))).
    rewrite dirname_scan_name; [|done|by destruct name].
    rewrite rev_involutive.
    destruct (rev (list_ascii_of_string (Str.join "/" (d :: ds)))) eqn:E.
    + apply (f_equal (@rev ascii)) in E. rewrite rev_involutive in E.
      apply (f_equal string_of_list_ascii) in E.
      rewrite string_of_list_ascii_of_string in E.
      by apply join_plain_nonempty in E.
    + by rewrite string_of_list_ascii_of_string.
Qed.

Lemma has_encoded_slash_no_escape (s : string) :
  Str.existsb (fun c => Ascii.eqb c "%"%char) s = false ->
  has_encoded_slash s = false.
Proof.
  induction s as [|c s IH]; [done|]. simpl.
  intros [-> Hs]%orb_false_iff. by rewrite IH.
Qed.

Lemma no_escape_abs_path (ss : list string) :
  forallb plain_segment ss = true ->
  Str.existsb (fun c => Ascii.eqb c "%"%char) (abs_path ss) = false.
Proof. apply no_escape_url_path. Qed.

(** A server file at a path of plain segments starts: its application is
    the one of lines 9-24 for the directory of the file, its static root
    the directory "src" beside the file. *)
Lemma main_plain (mime_types : string -> option string)
      (fs : gmap string Fs.node) (env : gmap string string)
      (dotenv : option (gmap string string)) (cwd : string)
      (ds : list string) (name : string) :
  forallb plain_segment (ds ++ [name]) = true ->
  main mime_types fs
    {| proc_env := env; proc_cwd := cwd; proc_dotenv := dotenv;
       import_meta_url := "file://" +:+ abs_path (ds ++ [name]) |}
  = Some {| server_root := abs_path (ds ++ ["src"]);
            server_app := app mime_types cwd fs (abs_path ds);
            server_listen := PORT (dotenv_config dotenv env) |}.
Proof.
  intros Hall.
  pose proof (forallb_plain_segment_name _ Hall) as Hall'.
  rewrite forallb_app in Hall'. apply andb_true_iff in Hall' as [Hds Hname].
  simpl in Hname. rewrite andb_true_r in Hname.
  rewrite (main_started _ _ _ (abs_path (ds ++ [name]))).
  - cbn [proc_cwd proc_env proc_dotenv]. rewrite dirname_abs by done.
    unfold static_dir. by rewrite static_root_plain.
  - cbn [import_meta_url]. unfold fileURLToPath.
    change (Str.strip_prefix "file://" ("file://" +:+ abs_path (ds ++ [name])))
      with (Some (abs_path (ds ++ [name]))).
    cbv iota. change (Path.isAbsolute (abs_path (ds ++ [name]))) with true.
    simpl negb. cbv iota.
    rewrite has_encoded_slash_no_escape by by apply no_escape_abs_path.
    by apply decode_no_escape, no_escape_abs_path.
Qed.

(** The environment line 26 reads lacks a variable exactly when neither
    the process environment nor the .env file has it. *)
Lemma dotenv_config_absent (dotenv : option (gmap string string))
      (env : gmap string string) (name : string) :
  dotenv_config dotenv env !! name = None
  <-> env !! name = None
      /\ (forall parsed, dotenv = Some parsed -> parsed !! name = None).
Proof.
  destruct dotenv as [parsed|]; simpl.
  - rewrite lookup_union_None. split; intros [H1 H2]; (split; [done|]).
    + by intros ? [= <-].
    + by apply H2.
  - split; [intros H1; split; [done|]; by intros ? [=] | by intros [H1 _]].
Qed.

(** ** Concrete cases: the sample installation *)










(** C7 as stated fails: with PORT=abc the value handed to [listen] is
    the string "abc", not 3000, and no TCP port 3000 is bound. *)
Lemma C7_counterexample :
  PORT {["PORT" := "abc"]} = JS.Str "abc"
  /\ PORT {["PORT" := "abc"]} <> JS.Num 3000
  /\ listen_port (PORT {["PORT" := "abc"]}) <> Some 3000%N.
Proof. vm_compute. repeat split; discriminate. Qed.





(** The sample server file, started from two directories. *)
Example static_root_sample :
  server_root <$> main Sample.mime_types Sample.fs (Sample.process ∅ "/home/user")
  = Some "/srv/slicer/frontend/src"
  /\ server_root <$> main Sample.mime_types Sample.fs (Sample.process ∅ "/tmp")
     = Some "/srv/slicer/frontend/src".
Proof. by vm_compute. Qed.

(** The sample server file starts with the application of the sample
    installation. *)
Example main_sample (env : gmap string string) (cwd : string) :
  main Sample.mime_types Sample.fs (Sample.process env cwd)
  = Some {| server_root := "/srv/slicer/frontend/src";
            server_app := app Sample.mime_types cwd Sample.fs
                              (abs_path Sample.dirname);
            server_listen := PORT env |}.
Proof. exact (main_plain _ _ env None cwd Sample.dirname "server.js" eq_refl). Qed.

(** * Further properties of server.js *)

(** ** The router, layer by layer *)

(** Two requests that every layer treats alike, up to a relation [R]
    between the responses that end them, get related answers and run
    the same layers. *)
Lemma router_handle_related (R : Response -> Response -> Prop)
      (req1 req2 : Request) (stack : list Layer) :
  Forall (fun l => layer_match l req1 = layer_match l req2
                   /\ forall res, step_related R (layer_handle l req1 res)
                                                 (layer_handle l req2 res))
         stack ->
  (forall err res, R (finalhandler err req1 res) (finalhandler err req2 res)) ->
  forall err res trace,
    R (response_of (router_handle stack err req1 res trace))
      (response_of (router_handle stack err req2 res trace))
    /\ trace_of (router_handle stack err req1 res trace)
       = trace_of (router_handle stack err req2 res trace).
Proof.
  intros Hstack Hfinal.
  induction Hstack as [|layer rest [Hmatch Hstep] _ IH]; intros err res trace.
  - split; [apply Hfinal|done].
  - rewrite !router_handle_cons, <- Hmatch.
    destruct (negb (layer_match layer req1)); [apply IH|].
    destruct err; [apply IH|].
    specialize (Hstep res).
    destruct (layer_handle layer req1 res), (layer_handle layer req2 res);
      simpl in Hstep; try done.
    + subst. apply IH.
    + destruct Hstep as [-> ->]. apply IH.
Qed.

Lemma step_related_refl (s : Step) : step_related eq s s.
Proof. by destruct s. Qed.

Lemma to_upper_to_lower_char (c : ascii) :
  Chars.to_upper (Chars.to_lower c) = Chars.to_upper c.
Proof. by destruct c as [[] [] [] [] [] [] [] []]. Qed.

Lemma to_upper_to_lower (s : string) :
  Str.to_upper (Str.to_lower s) = Str.to_upper s.
Proof.
  induction s as [|c s IH]; [done|].
  unfold Str.to_upper, Str.to_lower in *. cbn [Str.map].
  by rewrite IH, to_upper_to_lower_char.
Qed.

(** A method that is not GET or HEAD in upper case is none of the
    spellings the static middleware and the routes accept. *)
Lemma not_get_nor_head (m : string) :
  Str.to_upper m <> "GET" -> Str.to_upper m <> "HEAD" ->
  m <> "GET" /\ m <> "HEAD" /\ handles_get m = false.
Proof.
  intros Hg Hh. repeat split.
  - by intros ->.
  - by intros ->.
  - unfold handles_get. apply orb_false_iff.
    split; apply String.eqb_neq; intros E;
      apply (f_equal Str.to_upper) in E; rewrite to_upper_to_lower in E;
      [by apply Hg|by apply Hh].
Qed.

Section FurtherRequests.

Variable mime_types : string -> option string.
Variable cwd : string.
Variable fs : gmap string Fs.node.

(** X1. server.js registers GET routes and a static middleware only: a
    request under any other method than GET, HEAD and OPTIONS that the
    JSON middleware lets through is answered 404 with the final
    handler's page, whatever its path and whatever the files. *)
Theorem other_methods_not_found (dir : string) (req : Request) :
  Str.to_upper (req_method req) <> "GET" ->
  Str.to_upper (req_method req) <> "HEAD" ->
  Str.to_upper (req_method req) <> "OPTIONS" ->
  json_verdict req = None ->
  status (response_of (serve mime_types cwd fs dir req)) = 404
  /\ body (response_of (serve mime_types cwd fs dir req))
     = NotFoundPage (req_method req) (req_path req)
  /\ trace_of (serve mime_types cwd fs dir req) = [Lcors; Ljson; Lstatic].
Proof.
  intros Hg Hh Ho Hj.
  destruct (not_get_nor_head _ Hg Hh) as (Hg' & Hh' & Hroute).
  rewrite serve_past_json by done.
  router_step. unfold express_static.
  apply String.eqb_neq in Hg', Hh'. rewrite Hg', Hh'. cbn [negb andb].
  do 2 router_step. rewrite Hroute, !andb_false_r. cbn [negb router_handle].
  cbn [response_of trace_of fst snd]. unfold finalhandler, is_HEAD.
  cbn [status body]. by rewrite Hh'.
Qed.

(** X2. [cors()] answers every OPTIONS request itself: status 204, no
    body, the list of methods, the requested headers reflected, and no
    other layer runs, whatever the path, the body and the files. *)
Theorem options_answered_by_cors (dir : string) (req : Request) :
  Str.to_upper (req_method req) = "OPTIONS" ->
  let r := serve mime_types cwd fs dir req in
  status (response_of r) = 204
  /\ body (response_of r) = NoBody
  /\ headers (response_of r) !! "Access-Control-Allow-Methods"
     = Some "GET,HEAD,PUT,PATCH,POST,DELETE"
  /\ headers (response_of r) !! "Access-Control-Allow-Headers"
     = match req_acrh req with
       | Some h => if String.eqb h "" then None else Some h
       | None => None
       end
  /\ headers (response_of r) !! "Content-Length" = Some "0"
  /\ trace_of r = [Lcors].
Proof.
  intros Hm r. subst r. unfold serve, app_handle, app. router_step.
  unfold cors. rewrite Hm. cbn [String.eqb Ascii.eqb Bool.eqb].
  change ("OPTIONS" =? "OPTIONS")%string with true. cbv iota.
  cbn [response_of trace_of fst snd status body headers].
  destruct (req_acrh req) as [h|]; [destruct (String.eqb h "")|];
    repeat split; unfold setHeader; cbn [res_headers];
    by rewrite ?lookup_insert_eq, ?lookup_insert_ne by done.
Qed.

(** X3. No handler of server.js reads the parsed body: a request whose
    body [express.json()] lets through (no application/json body, an
    empty one, or a JSON object or array within the limit) gets the
    answer, and runs the layers, it would without its body. *)
Theorem accepted_body_is_ignored (dir : string) (req : Request) :
  json_verdict req = None ->
  serve mime_types cwd fs dir req
  = serve mime_types cwd fs dir (without_body req).
Proof.
  intros Hj. unfold serve, app_handle.
  destruct (router_handle_related eq req (without_body req)
              (app mime_types cwd fs dir)) with (err := @None HttpError)
              (res := initial_res) (trace := @nil LayerName) as [H1 H2].
  - unfold app. repeat constructor; cbn [layer_handle use get]; intros res;
      try apply step_related_refl.
    unfold express_json. rewrite Hj. done.
  - done.
  - unfold response_of, trace_of in *.
    by destruct (router_handle _ _ req _ _), (router_handle _ _ (without_body req) _ _);
      simplify_eq/=.
Qed.



End FurtherRequests.

(** ** Names with a leading dot, directories, missing pages *)



Lemma plain_segment_url_name (l : list string) :
  forallb plain_segment l = true -> forallb url_name l = true.
Proof.
  rewrite !forallb_forall. intros H x Hx. specialize (H x Hx).
  unfold plain_segment in H. unfold url_name.
  apply andb_true_iff in H as [[-> _]%andb_true_iff ->]. done.
Qed.



Section SendNames.

Variable mime_types : string -> option string.
Variable cwd : string.
Variable fs : gmap string Fs.node.














End SendNames.

(** ** The spellings of "/verify", directory indexes, bad escapes *)






Section Spellings.

Variable mime_types : string -> option string.
Variable cwd : string.
Variable fs : gmap string Fs.node.



End Spellings.

(** ** Start-up *)



(** ** HEAD requests *)

Section HeadRequests.

Variable mime_types : string -> option string.
Variable cwd : string.
Variable fs : gmap string Fs.node.

(** X14. A HEAD request is answered as the GET request for the same
    path is, without the body: same status, same headers, same layers
    run.  This holds for every path, file system and body, be the
    answer a file, a redirection or an error. *)
Theorem head_mirrors_get (dir : string) (req : Request) :
  req_method req = "GET" ->
  let g := serve mime_types cwd fs dir req in
  let h := serve mime_types cwd fs dir (with_method "HEAD" req) in
  head_of (response_of g) (response_of h) /\ trace_of g = trace_of h.
Proof.
  intros Hm g h. subst g h.
  destruct req as [m p ct acrh b]. cbn [req_method] in Hm. subst m.
  unfold serve, app_handle, with_method.
  cbn [req_method req_path req_content_type req_acrh req_body].
  apply router_handle_related.
  - unfold app. repeat apply Forall_cons_2; try apply Forall_nil_2;
      (split; [reflexivity|intros res]); cbn [use get layer_handle].
    + reflexivity.
    + unfold express_json.
      change (json_verdict (Build_Request "HEAD" p ct acrh b))
        with (json_verdict (Build_Request "GET" p ct acrh b)).
      by destruct (json_verdict _).
    + unfold express_static. cbn [req_method req_path].
      change (negb ("GET" =? "GET")%string && negb ("GET" =? "HEAD")%string)
        with false.
      change (negb ("HEAD" =? "GET")%string && negb ("HEAD" =? "HEAD")%string)
        with false.
      cbv iota.
      destruct (send _ _ _ _) as [path data|path|st].
      * done.
      * destruct (hasTrailingSlash p); [done|]. done.
      * by destruct (st <? 500).
    + unfold res_sendFile. destruct (negb (Path.isAbsolute _)); [done|].
      by destruct (send_decoded _ _ _ _ _) as [path data|path|st].
    + unfold res_sendFile. destruct (negb (Path.isAbsolute _)); [done|].
      by destruct (send_decoded _ _ _ _ _) as [path data|path|st].
  - intros err res. done.
Qed.

End HeadRequests.

(** ** No file from outside the source directory *)

Lemma clean_name_inv (s : string) :
  clean_name s = true ->
  s <> "" /\ s <> "." /\ s <> ".." /\ Str.existsb Path.is_sep s = false.
Proof.
  unfold clean_name. rewrite !andb_true_iff, !negb_true_iff.
  intros [[[H1 H2] H3] H4]. by apply String.eqb_neq in H1, H2, H3.
Qed.

Lemma plain_clean (s : string) : plain_name s = true -> clean_name s = true.
Proof.
  intros (H1 & H2 & H3 & H4 & _)%plain_name_inv. unfold clean_name.
  apply String.eqb_neq in H1, H2, H3. by rewrite H1, H2, H3, H4.
Qed.

Lemma forallb_plain_clean (l : list string) :
  forallb plain_name l = true -> forallb clean_name l = true.
Proof.
  rewrite !forallb_forall. intros H x Hx. by apply plain_clean, H.
Qed.

Lemma kept_cons_clean (x : string) (l : list string) :
  x <> "" -> x <> "." -> kept (x :: l) = x :: kept l.
Proof.
  intros H1 H2. unfold kept. cbn [List.filter].
  apply String.eqb_neq in H1, H2. by rewrite H1, H2.
Qed.

Lemma kept_clean (l : list string) :
  forallb clean_name l = true -> kept l = l.
Proof.
  induction l as [|x l IH]; [done|]. cbn [forallb].
  intros [(H1 & H2 & _)%clean_name_inv Hl]%andb_true_iff.
  by rewrite kept_cons_clean, IH.
Qed.

Lemma kept_app (a b : list string) : kept (a ++ b) = kept a ++ kept b.
Proof. apply List.filter_app. Qed.

Lemma kept_parts_of (l : list string) :
  forallb clean_name l = true -> kept (parts_of l) = l.
Proof.
  intros Hl. destruct l as [|x l]; [done|]. by apply kept_clean.
Qed.

(** Without ".." among the segments, [normalizeString] only drops the
    empty ones and the dots. *)
Lemma normalize_go_kept (a : bool) (l st : list string) :
  ".." ∉ l -> Path.normalize_go a st l = rev st ++ kept l.
Proof.
  revert st. induction l as [|x l IH]; intros st Hno.
  - cbn. by rewrite List.app_nil_r.
  - apply not_elem_of_cons in Hno as [Hx Hno]. cbn [Path.normalize_go].
    destruct (decide (x = "" \/ x = ".")) as [Hd|Hd].
    + rewrite IH by done. f_equal. unfold kept. cbn [List.filter].
      by destruct Hd as [-> | ->].
    + rewrite decide_False by done. rewrite IH by done.
      rewrite kept_cons_clean by (intros ->; apply Hd; auto).
      cbn [rev]. by rewrite <- List.app_assoc.
Qed.

(** Splitting at more separators refines the split at fewer. *)
Lemma split_refine (f g : ascii -> bool) (s : string) :
  (forall c, f c = true -> g c = true) ->
  Str.split g s = concat (List.map (Str.split g) (Str.split f s)).
Proof.
  intros Hfg. induction s as [|c r IH]; [done|].
  cbn [Str.split]. destruct (f c) eqn:Ef.
  - rewrite (Hfg c Ef). cbn [List.map concat Str.split List.app]. by rewrite IH.
  - destruct (Str.split f r) as [|h t] eqn:Er; [by apply split_nonempty in Er|].
    cbn [List.map concat] in *. cbn [Str.split]. rewrite IH.
    destruct (g c).
    + done.
    + destruct (Str.split g h) as [|h1 t1] eqn:Eh;
        [by apply split_nonempty in Eh|]. done.
Qed.

Lemma up_path_segments (q : string) :
  up_path q = false -> ".." ∉ Path.segments q.
Proof.
  unfold up_path. intros Hup%bool_decide_eq_false Hin. apply Hup.
  rewrite (split_refine Path.is_sep) by
    (intros c Hc; unfold Path.is_sep in Hc; by rewrite Hc).
  apply list_elem_of_In, in_concat. exists [".."]. split; [|by left].
  apply in_map_iff. exists "..". split; [done|]. by apply list_elem_of_In.
Qed.

Lemma split_parts_no_sep (f : ascii -> bool) (s : string) :
  Forall (fun x => Str.existsb f x = false) (Str.split f s).
Proof.
  induction s as [|c r IH]; [by repeat constructor|].
  cbn [Str.split]. destruct (f c) eqn:Ef; [by constructor|].
  destruct (Str.split f r) as [|h t]; [by repeat constructor; cbn; rewrite Ef|].
  apply Forall_cons in IH as [Hh Ht]. constructor; [|done].
  cbn. by rewrite Ef, Hh.
Qed.

Lemma kept_segments_clean (q : string) :
  ".." ∉ Path.segments q ->
  forallb clean_name (kept (Path.segments q)) = true.
Proof.
  intros Hno. apply forallb_forall. intros x [Hx Hk]%filter_In.
  apply andb_true_iff in Hk as [H1 H2]. unfold clean_name.
  rewrite H1, H2. cbn [andb].
  assert (x <> "..") as H3%String.eqb_neq
    by (intros ->; by apply Hno, list_elem_of_In).
  rewrite H3. cbn [negb andb]. apply negb_true_iff.
  pose proof (split_parts_no_sep Path.is_sep q) as Hall.
  rewrite Forall_forall in Hall. by apply Hall, list_elem_of_In.
Qed.

Lemma join_clean_nonempty (l : list string) :
  forallb clean_name l = true -> l <> [] -> Str.join "/" l <> "".
Proof.
  intros Hl Hne. destruct l as [|x l]; [done|].
  cbn [forallb] in Hl. apply andb_true_iff in Hl as [(Hx & _)%clean_name_inv _].
  destruct l as [|y l]; [done|].
  rewrite join_cons by done. by intros [? _]%sapp_eq_nil.
Qed.

Lemma clean_Forall (l : list string) :
  forallb clean_name l = true ->
  Forall (fun x => Str.existsb Path.is_sep x = false) l.
Proof.
  intros Hl. apply Forall_forall. intros x Hx%list_elem_of_In.
  rewrite forallb_forall in Hl. by apply Hl, clean_name_inv in Hx as (_&_&_&?).
Qed.

Lemma segments_join_clean (l : list string) :
  forallb clean_name l = true ->
  Path.segments (Str.join "/" l) = parts_of l.
Proof.
  intros Hl. apply (split_join Path.is_sep "/"%char); [done|].
  by apply clean_Forall.
Qed.

Lemma last_join_clean (l : list string) :
  forallb clean_name l = true -> l <> [] ->
  exists c, Str.last (Str.join "/" l) = Some c /\ Path.is_sep c = false.
Proof.
  intros Hl Hne. induction l as [|x l IH]; [done|].
  cbn [forallb] in Hl. apply andb_true_iff in Hl as [Hx Hl].
  destruct l as [|y l].
  - cbn [Str.join]. apply clean_name_inv in Hx as (Hx & _ & _ & Hs).
    destruct (Str.last x) as [c|] eqn:E.
    + exists c. split; [done|]. by eapply last_no.
    + destruct x as [|a r]; [done|]. rewrite last_cons in E.
      by destruct (Str.last r).
  - rewrite join_cons by done.
    destruct IH as (c & Hc & Hsep); [done..|].
    exists c. split; [|done]. by rewrite !last_app, Hc.
Qed.

(** [path.normalize] of an absolute path without ".." segments. *)
Lemma normalize_rooted (x : string) :
  ".." ∉ Path.segments x -> kept (Path.segments x) <> [] ->
  Path.normalize ("/" +:+ x)
  = abs_path (kept (Path.segments x))
    +:+ (if Str.ends_with_char "/"%char ("/" +:+ x) then "/" else "").
Proof.
  intros Hno Hne. unfold Path.normalize.
  rewrite decide_False by done.
  change (Path.isAbsolute ("/" +:+ x)) with true. cbn [negb].
  unfold Path.normalizeString.
  change (Path.segments ("/" +:+ x)) with ("" :: Path.segments x).
  rewrite normalize_go_empty, normalize_go_kept by done. cbn [rev List.app].
  rewrite decide_False
    by (apply join_clean_nonempty; [by apply kept_segments_clean|done]).
  unfold abs_path.
  destruct (Str.ends_with_char "/"%char ("/" +:+ x)).
  - by rewrite !sapp_assoc.
  - by rewrite sapp_nil_r.
Qed.

Lemma normalize_below (names : list string) (x : string) :
  forallb clean_name names = true -> names <> [] ->
  ".." ∉ Path.segments x ->
  Path.normalize (abs_path names +:+ "/" +:+ x)
  = abs_path (names ++ kept (Path.segments x))
    +:+ (if Str.ends_with_char "/"%char ("/" +:+ x) then "/" else "").
Proof.
  intros Hl Hne Hno.
  assert (Path.segments (Str.join "/" names +:+ "/" +:+ x)
          = names ++ Path.segments x) as Hsegs.
  { unfold Path.segments. rewrite sapp_cons, sapp_nil_l.
    rewrite split_app_sep by done.
    fold (Path.segments (Str.join "/" names)).
    rewrite segments_join_clean by done. by destruct names. }
  unfold abs_path at 1. rewrite sapp_assoc.
  rewrite normalize_rooted; rewrite Hsegs.
  - rewrite kept_app, kept_clean by done.
    change ("/" +:+ Str.join "/" names +:+ "/" +:+ x)
      with (abs_path names +:+ "/" +:+ x).
    by rewrite ends_with_app_slash.
  - intros [Hin|Hin]%elem_of_app; [|done].
    apply list_elem_of_In in Hin. rewrite forallb_forall in Hl.
    by apply Hl, clean_name_inv in Hin as (_ & _ & ? & _).
  - rewrite kept_app, kept_clean by done. by destruct names.
Qed.

Lemma inside_clean (rs names : list string) :
  forallb plain_name rs = true -> forallb clean_name names = true ->
  forallb clean_name (rs ++ names) = true.
Proof.
  intros Hrs Hn. by rewrite forallb_app, forallb_plain_clean, Hn.
Qed.

(** A path inside a directory is in normal form. *)
Lemma inside_normalize (rs : list string) (p : string) :
  forallb plain_name rs = true -> rs <> [] ->
  inside rs p -> Path.normalize p = p.
Proof.
  intros Hrs Hne (names & Hn & Hp).
  pose proof (inside_clean rs names Hrs Hn) as Hl.
  assert (rs ++ names <> []) as Hne' by by destruct rs.
  assert (".." ∉ rs ++ names) as Hno.
  { intros Hin%list_elem_of_In. rewrite forallb_forall in Hl.
    by apply Hl, clean_name_inv in Hin as (_ & _ & ? & _). }
  destruct Hp as [-> | ->].
  - unfold abs_path. rewrite normalize_rooted;
      rewrite segments_join_clean by done;
      (assert (parts_of (rs ++ names) = rs ++ names) as ->
         by by destruct (rs ++ names)); rewrite ?kept_clean by done; try done.
    destruct (last_join_clean _ Hl Hne') as (c & Hc & Hsep).
    unfold Str.ends_with_char. rewrite last_app, Hc.
    unfold Path.is_sep in Hsep. rewrite Ascii.eqb_sym, Hsep.
    by rewrite sapp_nil_r.
  - rewrite <- (sapp_nil_r (abs_path (rs ++ names) +:+ "/")), sapp_assoc.
    rewrite normalize_below by (try done; by intros [= ]%list_elem_of_singleton).
    change (kept (Path.segments "")) with (@nil string).
    by rewrite List.app_nil_r.
Qed.

Lemma inside_join_root (rs : list string) (q : string) :
  forallb plain_name rs = true -> rs <> [] ->
  ".." ∉ Path.segments q ->
  inside rs (Path.join [abs_path rs; q]).
Proof.
  intros Hrs Hne Hno. destruct (decide (q = "")) as [->|Hq].
  - exists []. split; [done|]. left. rewrite List.app_nil_r.
    unfold Path.join. rewrite filter_cons_True by done.
    rewrite filter_cons_False by (by intros ?). rewrite filter_nil.
    cbn [Str.join]. by apply normalize_abs.
  - exists (kept (Path.segments q)). split; [by apply kept_segments_clean|].
    rewrite path_join2 by done.
    rewrite normalize_below by (try done; by apply forallb_plain_clean).
    destruct (Str.ends_with_char _ _); [by right|left]. by rewrite sapp_nil_r.
Qed.

Lemma inside_join_index (rs : list string) (p : string) :
  forallb plain_name rs = true -> rs <> [] ->
  inside rs p -> inside rs (Path.join [p; "index.html"]).
Proof.
  intros Hrs Hne (names & Hn & Hp).
  pose proof (inside_clean rs names Hrs Hn) as Hl.
  assert (rs ++ names <> []) as Hne' by by destruct rs.
  exists (names ++ ["index.html"]). split; [by rewrite forallb_app, Hn|].
  left. rewrite List.app_assoc.
  destruct Hp as [-> | ->].
  - rewrite path_join2 by done.
    rewrite normalize_below by
      (try done; intros Hin; by repeat apply elem_of_cons in Hin as [?|Hin];
                              try apply elem_of_nil in Hin).
    by rewrite sapp_nil_r.
  - rewrite path_join2 by (try done; by intros [? _]%sapp_eq_nil).
    rewrite sapp_assoc.
    rewrite normalize_below by
      (try done; intros Hin; by repeat apply elem_of_cons in Hin as [?|Hin];
                              try apply elem_of_nil in Hin).
    by rewrite sapp_nil_r.
Qed.

Section Confinement.

Variable mime_types : string -> option string.
Variable cwd : string.
Variable fs : gmap string Fs.node.

(** Whatever the request path, a file that [send] finds for a root lies
    inside that root. *)
Lemma send_inside (rs : list string) (path p data : string) :
  forallb plain_name rs = true -> rs <> [] ->
  send cwd fs (Some (abs_path rs)) path = SendFile p data ->
  inside rs p /\ fs !! p = Some (Fs.File data).
Proof.
  intros Hrs Hne. unfold send.
  destruct (JS.decodeURIComponent path) as [d|]; [|done].
  unfold send_decoded.
  destruct (Str.existsb _ d); [done|].
  set (q := if decide (d = "") then d else Path.normalize ("./" +:+ d)).
  destruct (up_path q) eqn:Hup; [done|].
  destruct (dotfile_ignored _); [done|].
  assert (inside rs (Path.normalize (Path.join [abs_path rs; q]))) as Hin.
  { pose proof (inside_join_root rs q Hrs Hne (up_path_segments q Hup)) as H.
    by rewrite (inside_normalize rs). }
  destruct (hasTrailingSlash path).
  - unfold send_sendIndex. pose proof (inside_join_index rs _ Hrs Hne Hin) as H.
    destruct (fs !! Path.join _) as [[d'|]|] eqn:E; try done.
    by intros [= <- <-].
  - unfold send_sendFile.
    destruct (fs !! Path.normalize _) as [[d'|]|] eqn:E; try done.
    by intros [= <- <-].
Qed.

(** X15. However the path of a request is spelled (dots, "..",
    backslashes, percent escapes), a response that carries the contents
    of a file carries those of a file inside the directory "src" beside
    server.js: nothing outside it is ever sent. *)
Theorem served_file_inside_src (ds : list string) (req : Request)
        (data : string) :
  forallb plain_name ds = true ->
  body (response_of (serve mime_types cwd fs (abs_path ds) req))
  = FileContents data ->
  exists p, inside (ds ++ ["src"]) p /\ fs !! p = Some (Fs.File data).
Proof.
  intros Hds.
  set (P := fun resp : Response =>
              body resp = FileContents data ->
              exists p, inside (ds ++ ["src"]) p
                        /\ fs !! p = Some (Fs.File data)).
  assert (forall req' res path d,
            fs !! path = Some (Fs.File d) -> inside (ds ++ ["src"]) path ->
            P (send_stream mime_types req' res path d)) as Hstream.
  { intros req' res path d Hfile Hin. unfold P, send_stream. cbn [body].
    destruct (is_HEAD req'); [done|]. intros [= ->]. by exists path. }
  unfold serve, app_handle.
  apply (router_handle_related (fun x _ => P x) req req
           (app mime_types cwd fs (abs_path ds))).
  - unfold app.
    repeat apply Forall_cons_2; try apply Forall_nil_2;
      (split; [reflexivity|intros res]); cbn [use get layer_handle].
    + unfold cors. by destruct (String.eqb _ _).
    + unfold express_json. by destruct (json_verdict req).
    + unfold express_static. rewrite static_root_plain by done.
      destruct (negb _ && negb _); [done|].
      destruct (send _ _ _ _) as [path d|path|st] eqn:E.
      * apply send_inside in E as [Hin Hfile];
          [by apply Hstream|by rewrite forallb_app, Hds|by destruct ds].
      * destruct (hasTrailingSlash _); [done|].
        unfold step_related, P, redirect_directory. cbn [body].
        by destruct (is_HEAD req).
      * by destruct (st <? 500).
    + rewrite res_sendFile_plain by done.
      destruct (fs !! _) as [[d|]|] eqn:E; try done.
      apply Hstream; [done|]. exists ["index.html"]. split; [done|]. left.
      by rewrite <- List.app_assoc.
    + rewrite res_sendFile_plain by done.
      destruct (fs !! _) as [[d|]|] eqn:E; try done.
      apply Hstream; [done|]. exists ["verify.html"]. split; [done|]. left.
      by rewrite <- List.app_assoc.
  - intros err res. unfold P, finalhandler. cbn [body].
    destruct (is_HEAD req); [done|]. by destruct err.
Qed.

End Confinement.

(** ** Paths with a final slash *)

Section FinalSlash.

Variable mime_types : string -> option string.
Variable cwd : string.
Variable fs : gmap string Fs.node.






End FinalSlash.

(** ** Concrete cases of the further properties *)

Lemma other_methods_not_found_witness :
  let req := Sample.request "POST" "/verify" in
  Str.to_upper (req_method req) <> "GET"
  /\ Str.to_upper (req_method req) <> "HEAD"
  /\ Str.to_upper (req_method req) <> "OPTIONS"
  /\ json_verdict req = None
  /\ status (response_of (Sample.serve req)) = 404
  /\ body (response_of (Sample.serve req)) = NotFoundPage "POST" "/verify"
  /\ trace_of (Sample.serve req) = [Lcors; Ljson; Lstatic].
Proof.
  intros req. do 3 (split; [discriminate|]). split; [reflexivity|].
  apply (other_methods_not_found Sample.mime_types Sample.cwd Sample.fs
           (abs_path Sample.dirname) req);
    try discriminate; reflexivity.
Defined.

Lemma options_answered_by_cors_witness :
  let req := {| req_method := "OPTIONS"; req_path := "/verify";
                req_content_type := None;
                req_acrh := Some "content-type"; req_body := None |} in
  Str.to_upper (req_method req) = "OPTIONS"
  /\ status (response_of (Sample.serve req)) = 204
  /\ body (response_of (Sample.serve req)) = NoBody
  /\ headers (response_of (Sample.serve req)) !! "Access-Control-Allow-Methods"
     = Some "GET,HEAD,PUT,PATCH,POST,DELETE"
  /\ headers (response_of (Sample.serve req)) !! "Access-Control-Allow-Headers"
     = Some "content-type"
  /\ headers (response_of (Sample.serve req)) !! "Content-Length" = Some "0"
  /\ trace_of (Sample.serve req) = [Lcors].
Proof.
  intros req. split; [reflexivity|].
  apply (options_answered_by_cors Sample.mime_types Sample.cwd Sample.fs
           (abs_path Sample.dirname) req).
  reflexivity.
Defined.

Lemma accepted_body_is_ignored_witness :
  let req := Sample.json_request "GET" "/verify" "[1, 2]" in
  json_verdict req = None
  /\ Sample.serve req = Sample.serve (without_body req).
Proof.
  intros req. split; [reflexivity|].
  apply (accepted_body_is_ignored Sample.mime_types Sample.cwd Sample.fs
           (abs_path Sample.dirname) req).
  reflexivity.
Defined.











Lemma head_mirrors_get_witness :
  let req := Sample.request "GET" "/css/site.css" in
  req_method req = "GET"
  /\ status (response_of (Sample.serve req)) = 200
  /\ body (response_of (Sample.serve req)) = FileContents "body{}"
  /\ head_of (response_of (Sample.serve req))
             (response_of (Sample.serve (with_method "HEAD" req)))
  /\ trace_of (Sample.serve req)
     = trace_of (Sample.serve (with_method "HEAD" req)).
Proof.
  intros req. do 3 (split; [reflexivity|]).
  apply (head_mirrors_get Sample.mime_types Sample.cwd Sample.fs
           (abs_path Sample.dirname) req).
  reflexivity.
Defined.

Lemma served_file_inside_src_witness :
  let req := Sample.request "GET" "/css/../css/./site.css" in
  forallb plain_name Sample.dirname = true
  /\ body (response_of (Sample.serve req)) = FileContents "body{}"
  /\ exists p, inside (Sample.dirname ++ ["src"]) p
               /\ Sample.fs !! p = Some (Fs.File "body{}").
Proof.
  intros req. do 2 (split; [reflexivity|]).
  apply (served_file_inside_src Sample.mime_types Sample.cwd Sample.fs
           Sample.dirname req "body{}");
    reflexivity.
Defined.



(** ** Paths that climb out of the root *)






Section Climbing.

Variable mime_types : string -> option string.
Variable cwd : string.
Variable fs : gmap string Fs.node.


End Climbing.

(** X19. A variable PORT that is set but empty in the environment of
    the process hides the PORT of the .env file, which [dotenv.config()]
    does not let override it: the program listens on the default 3000. *)
Theorem empty_port_hides_dotenv
        (mime_types : string -> option string) (fs : gmap string Fs.node)
        (p : Process) (file : string) :
  fileURLToPath (import_meta_url p) = Some file ->
  proc_env p !! "PORT" = Some "" ->
  exists srv, main mime_types fs p = Some srv
              /\ server_listen srv = JS.Num 3000
              /\ listen_port (server_listen srv) = Some 3000%N.
Proof.
  intros Hfile Hset. rewrite (main_started _ _ _ _ Hfile).
  eexists. split; [done|]. cbn [server_listen].
  unfold PORT, JS.env_get.
  by rewrite (dotenv_config_keeps _ _ _ _ Hset).
Qed.


Lemma empty_port_hides_dotenv_witness :
  let p := Cases.process {["PORT" := ""]} (Some Cases.dotenv) in
  fileURLToPath (import_meta_url p) = Some "/srv/slicer/frontend/server.js"
  /\ proc_env p !! "PORT" = Some ""
  /\ Cases.dotenv !! "PORT" = Some "8080"
  /\ exists srv, main Sample.mime_types Sample.fs p = Some srv
                 /\ server_listen srv = JS.Num 3000
                 /\ listen_port (server_listen srv) = Some 3000%N.
Proof.
  intros p. do 3 (split; [reflexivity|]).
  apply (empty_port_hides_dotenv Sample.mime_types Sample.fs p
           "/srv/slicer/frontend/server.js");
    reflexivity.
Defined.
